(** * MCPClient: a session facade over the MCP client library

    A shallow embedding of [mcp_client.py].  The class [MCPClient] wraps the
    client side of the Model Context Protocol: it owns a transport handle and
    a client session, both [None] until [connect], and forwards five
    data-access operations to the session.

    The protocol library ([mcp]), the URL validator ([pydantic.AnyUrl]) and
    the JSON decoder ([json.loads]) are not part of the file; they are the
    interface [McpLibrary] below, and every theorem holds for every
    implementation of it.  Python objects are mutable and shared, so the
    facade lives in a store indexed by references, and every method takes
    [self] as the source does. *)

From Stdlib Require Import String Ascii List ZArith Bool Lia.
Import ListNotations.
Open Scope string_scope.
Open Scope list_scope.

Set Warnings "-register-all".

(** ** Python values, exceptions and results *)

(** The values [json.loads] produces, and [str] for raw resource text.  A
    float keeps the literal it was read from: no floating point is
    interpreted here. *)
Inductive pyval : Type :=
| PyNone
| PyBool (b : bool)
| PyInt (z : Z)
| PyFloat (literal : string)
| PyStr (s : string)
| PyList (items : list pyval)
| PyDict (entries : list (string * pyval)).

(** [Dict[str, Any]]: insertion-ordered, keys unique. *)
Definition Dict : Type := list (string * pyval).

(** [{}] *)
Definition empty_dict : Dict := [].

(** Truth value of an object, as [if x:] and [not x] test it. *)
Definition truthy (v : pyval) : bool :=
  match v with
  | PyNone => false
  | PyBool b => b
  | PyInt z => negb (Z.eqb z 0)
  | PyFloat _ => true
  | PyStr s => negb (String.eqb s EmptyString)
  | PyList l => match l with [] => false | _ => true end
  | PyDict d => match d with [] => false | _ => true end
  end.

Inductive exn : Type :=
| RuntimeError (msg : string)
| IndexError (msg : string)
| AttributeError (msg : string)
| JSONDecodeError (msg : string)
| ValidationError (msg : string)
| McpError (msg : string)
| OSError (msg : string)
| CancelledError (msg : string)
| KeyboardInterrupt (msg : string)
| SystemExit (msg : string).

(** [isinstance(e, Exception)]: [asyncio.CancelledError],
    [KeyboardInterrupt] and [SystemExit] derive from [BaseException] only,
    so an [except Exception] clause lets them through. *)
Definition is_Exception (e : exn) : bool :=
  match e with
  | CancelledError _ | KeyboardInterrupt _ | SystemExit _ => false
  | _ => true
  end.

(** Outcome of a call: a value, or a raised exception. *)
Inductive result (A : Type) : Type :=
| Ok (a : A)
| Raise (e : exn).
Arguments Ok {A} a.
Arguments Raise {A} e.


(** [StdioServerParameters(command=..., args=[...])] *)
Record StdioServerParameters : Type := {
  command : string;
  args : list string
}.

(** ** The collaborators

    What the facade uses of [mcp], [pydantic] and [json].  [World] is the
    state outside the interpreter (the server subprocess and its pipes); a
    call may change it and may raise. *)
Class McpLibrary : Type := {
  World : Type;
  (** the async context manager that [stdio_client(params)] returns *)
  Handle : Type;
  ClientSession : Type;
  Url : Type;
  Tool : Type;
  Prompt : Type;
  PromptMessage : Type;
  CallToolResult : Type;
  ListToolsResult : Type;
  ListPromptsResult : Type;
  GetPromptResult : Type;
  ResourceContents : Type;
  ReadResourceResult : Type;
  (** attribute reads on the library's result objects *)
  tools : ListToolsResult -> list Tool;
  prompts : ListPromptsResult -> list Prompt;
  messages : GetPromptResult -> list PromptMessage;
  contents : ReadResourceResult -> list ResourceContents;
  mime_type : ResourceContents -> option string;
  text : ResourceContents -> string;
  (** [AnyUrl(uri)] and [json.loads(text)]: pure, may raise *)
  AnyUrl : string -> result Url;
  json_loads : string -> result pyval;
  (** calls that reach the outside *)
  stdio_client : StdioServerParameters -> World -> result Handle * World;
  handle_aenter : Handle -> World -> result ClientSession * World;
  handle_aexit : Handle -> World -> result unit * World;
  session_initialize : ClientSession -> World -> result unit * World;
  session_list_tools : ClientSession -> World -> result ListToolsResult * World;
  session_call_tool :
    ClientSession -> string -> Dict -> World -> result CallToolResult * World;
  session_read_resource :
    ClientSession -> Url -> World -> result ReadResourceResult * World;
  session_list_prompts :
    ClientSession -> World -> result ListPromptsResult * World;
  session_get_prompt :
    ClientSession -> string -> Dict -> World -> result GetPromptResult * World
}.

Section Facade.

Context {L : McpLibrary}.

(** The calls the facade makes on its collaborators, in the order made. *)
Inductive Call : Type :=
| CallStdioClient (p : StdioServerParameters)
| CallEnter (h : Handle)
| CallExit (h : Handle)
| CallInitialize (s : ClientSession)
| CallListTools (s : ClientSession)
| CallCallTool (s : ClientSession) (tool_name : string) (tool_input : Dict)
| CallReadResource (s : ClientSession) (u : Url)
| CallListPrompts (s : ClientSession)
| CallGetPrompt (s : ClientSession) (prompt_name : string) (arguments : Dict).

(** The instance attributes set by [__init__].  A handle and a session are
    plain objects, always true when present, so [None] is the only false
    value of the two optional fields. *)
Record MCPClient : Type := {
  server_script_path : string;
  session : option ClientSession;
  _stdio_client : option Handle
}.

Definition ref : Type := nat.

Record State : Type := {
  heap : ref -> MCPClient;
  calls : list Call;
  outside : World
}.

(** ** State and exceptions *)

Definition M (A : Type) : Type := State -> result A * State.

Definition ret {A} (a : A) : M A := fun st => (Ok a, st).

Definition raise {A} (e : exn) : M A := fun st => (Raise e, st).

Definition bind {A B} (m : M A) (k : A -> M B) : M B :=
  fun st =>
    match m st with
    | (Ok a, st') => k a st'
    | (Raise e, st') => (Raise e, st')
    end.

Notation "x <- m ;; k" := (bind m (fun x => k))
  (at level 100, m at next level, right associativity).
Notation "m ;; k" := (bind m (fun _ => k))
  (at level 100, right associativity).

(** [self.f] *)
Definition getattr {A} (self : ref) (f : MCPClient -> A) : M A :=
  fun st => (Ok (f (heap st self)), st).

Definition upd (h : ref -> MCPClient) (r : ref) (c : MCPClient) : ref -> MCPClient :=
  fun r' => if Nat.eqb r' r then c else h r'.

Definition modify (self : ref) (f : MCPClient -> MCPClient) : M unit :=
  fun st =>
    (Ok tt, {| heap := upd (heap st) self (f (heap st self));
               calls := calls st;
               outside := outside st |}).

(** [self.session = v] *)
Definition set_session (self : ref) (v : option ClientSession) : M unit :=
  modify self (fun c =>
    {| server_script_path := server_script_path c;
       session := v;
       _stdio_client := _stdio_client c |}).

(** [self._stdio_client = v] *)
Definition set_stdio_client (self : ref) (v : option Handle) : M unit :=
  modify self (fun c =>
    {| server_script_path := server_script_path c;
       session := session c;
       _stdio_client := v |}).

(** A call on a collaborator: recorded, then run on the outside world. *)
Definition extern {A} (c : Call) (f : World -> result A * World) : M A :=
  fun st =>
    let (r, w) := f (outside st) in
    (r, {| heap := heap st; calls := calls st ++ [c]; outside := w |}).

(** The receiver of a method call [o.m(...)]: calling a method on [None]
    raises [AttributeError]. *)
Definition receiver {A} (o : option A) : M A :=
  match o with
  | Some a => ret a
  | None => raise (AttributeError "'NoneType' object has no attribute")
  end.

(** [not o] for an optional object. *)
Definition not_ {A} (o : option A) : bool :=
  match o with
  | Some _ => false
  | None => true
  end.

(** ** The class *)

Definition NOT_CONNECTED : string :=
  "Client not connected. Use async context manager or call connect() first.".

Definition __init__ (self : ref) (path : string) : M unit :=
  modify self (fun _ =>
    {| server_script_path := path; session := None; _stdio_client := None |}).

Definition connect (self : ref) : M unit :=
  path <- getattr self server_script_path ;;
  let server_params := {| command := "python"; args := [path] |} in
  h <- extern (CallStdioClient server_params) (stdio_client server_params) ;;
  set_stdio_client self (Some h) ;;
  o <- getattr self _stdio_client ;;
  h <- receiver o ;;
  s <- extern (CallEnter h) (handle_aenter h) ;;
  set_session self (Some s) ;;
  o <- getattr self session ;;
  s <- receiver o ;;
  extern (CallInitialize s) (session_initialize s).

Definition cleanup (self : ref) : M unit :=
  o <- getattr self _stdio_client ;;
  (if negb (not_ o)
   then h <- receiver o ;; extern (CallExit h) (handle_aexit h)
   else ret tt) ;;
  set_session self None ;;
  set_stdio_client self None.

Definition __aenter__ (self : ref) : M ref :=
  connect self ;;
  ret self.

(** [exc] stands for the three arguments [exc_type], [exc_val], [exc_tb],
    which the method ignores.  It returns [None]: the exception that left
    the block, if any, is not suppressed. *)
Definition __aexit__ (self : ref) (exc : option exn) : M pyval :=
  cleanup self ;;
  ret PyNone.

Definition list_tools (self : ref) : M (list Tool) :=
  o <- getattr self session ;;
  if not_ o then raise (RuntimeError NOT_CONNECTED) else
  o <- getattr self session ;;
  s <- receiver o ;;
  result <- extern (CallListTools s) (session_list_tools s) ;;
  ret (tools result).

Definition call_tool (self : ref) (tool_name : string) (tool_input : Dict)
  : M CallToolResult :=
  o <- getattr self session ;;
  if not_ o then raise (RuntimeError NOT_CONNECTED) else
  o <- getattr self session ;;
  s <- receiver o ;;
  result <- extern (CallCallTool s tool_name tool_input)
                   (session_call_tool s tool_name tool_input) ;;
  ret result.

(** [l[0]] *)
Definition first {A} (l : list A) : M A :=
  match l with
  | x :: _ => ret x
  | [] => raise (IndexError "list index out of range")
  end.

(** [m == "application/json"], where [m] may be [None]. *)
Definition is_json (m : option string) : bool :=
  match m with
  | Some t => String.eqb t "application/json"
  | None => false
  end.

Definition lift {A} (r : result A) : M A := fun st => (r, st).

Definition read_resource (self : ref) (uri : string) : M pyval :=
  o <- getattr self session ;;
  if not_ o then raise (RuntimeError NOT_CONNECTED) else
  o <- getattr self session ;;
  s <- receiver o ;;
  u <- lift (AnyUrl uri) ;;
  result <- extern (CallReadResource s u) (session_read_resource s u) ;;
  resource <- first (contents result) ;;
  if is_json (mime_type resource)
  then lift (json_loads (text resource))
  else ret (PyStr (text resource)).

Definition list_prompts (self : ref) : M (list Prompt) :=
  o <- getattr self session ;;
  if not_ o then raise (RuntimeError NOT_CONNECTED) else
  o <- getattr self session ;;
  s <- receiver o ;;
  result <- extern (CallListPrompts s) (session_list_prompts s) ;;
  ret (prompts result).

(** [arguments] is [None] when the caller omits it. *)
Definition get_prompt (self : ref) (prompt_name : string)
  (arguments : option Dict) : M (list PromptMessage) :=
  o <- getattr self session ;;
  if not_ o then raise (RuntimeError NOT_CONNECTED) else
  let arguments :=
    match arguments with
    | None => empty_dict
    | Some d => d
    end in
  o <- getattr self session ;;
  s <- receiver o ;;
  result <- extern (CallGetPrompt s prompt_name arguments)
                   (session_get_prompt s prompt_name arguments) ;;
  ret (messages result).

(** ** [async with self as client: body]

    The statement of the language: the block runs only when [__aenter__]
    returned; [__aexit__] then runs on every way out of the block, and an
    exception that left the block is raised again unless [__aexit__]
    returned a true value. *)
Definition async_with (self : ref) (body : ref -> M unit) : M unit :=
  fun st =>
    match __aenter__ self st with
    | (Raise e, st1) => (Raise e, st1)
    | (Ok client, st1) =>
        match body client st1 with
        | (Ok _, st2) =>
            match __aexit__ self None st2 with
            | (Ok _, st3) => (Ok tt, st3)
            | (Raise e', st3) => (Raise e', st3)
            end
        | (Raise e, st2) =>
            match __aexit__ self (Some e) st2 with
            | (Ok v, st3) => if truthy v then (Ok tt, st3) else (Raise e, st3)
            | (Raise e', st3) => (Raise e', st3)
            end
        end
    end.

(** ** Vocabulary of the statements *)

(** Both connection fields of the facade at [self] are [None]. *)
Definition unset (st : State) (self : ref) : Prop :=
  session (heap st self) = None /\ _stdio_client (heap st self) = None.

(** The state [st] after the calls [cs], which left the outside at [w]. *)
Definition after (st : State) (cs : list Call) (w : World) : State :=
  {| heap := heap st; calls := calls st ++ cs; outside := w |}.

End Facade.

(** ** A JSON decoder

    An implementation of the [json_loads] slot, after the grammar that the
    decoder of the [json] module accepts: the four whitespace characters,
    [null], [true], [false], [NaN], [Infinity], [-Infinity], numbers,
    strings in strict mode (no control character, the eight short escapes
    and [\uXXXX] with surrogate pairs), arrays and objects, and nothing but
    whitespace after the value.  Strings are byte strings in UTF-8. *)
Module Json.

Open Scope char_scope.

Definition is_ws (c : ascii) : bool :=
  match c with
  | " " | "009" | "010" | "013" => true
  | _ => false
  end.

Fixpoint skip_ws (s : string) : string :=
  match s with
  | String c s' => if is_ws c then skip_ws s' else s
  | EmptyString => s
  end.

Definition is_digit (c : ascii) : bool :=
  let n := nat_of_ascii c in (48 <=? n)%nat && (n <=? 57)%nat.

(** The longest prefix of digits, and what follows it. *)
Fixpoint span_digits (s : string) : string * string :=
  match s with
  | String c s' =>
      if is_digit c
      then let (d, r) := span_digits s' in (String c d, r)
      else (EmptyString, s)
  | EmptyString => (EmptyString, s)
  end.

Fixpoint decimal (acc : Z) (d : string) : Z :=
  match d with
  | String c d' => decimal (10 * acc + Z.of_nat (nat_of_ascii c - 48)) d'
  | EmptyString => acc
  end.

(** The integer part: a lone zero, or digits that do not start with one. *)
Definition int_part (s : string) : option (string * string) :=
  match s with
  | String "0" r => Some (String "0" EmptyString, r)
  | String c _ =>
      if is_digit c then Some (span_digits s) else None
  | EmptyString => None
  end.

(** The optional fraction: a dot and at least one digit. *)
Definition frac_part (s : string) : string * string :=
  match s with
  | String "." r =>
      match span_digits r with
      | (EmptyString, _) => (EmptyString, s)
      | (d, r') => (String "." d, r')
      end
  | _ => (EmptyString, s)
  end.

(** The optional exponent: [e] or [E], an optional sign, at least one
    digit. *)
Definition exp_part (s : string) : string * string :=
  match s with
  | String e r =>
      if Ascii.eqb e "e" || Ascii.eqb e "E" then
        match r with
        | String sg r1 =>
            if Ascii.eqb sg "+" || Ascii.eqb sg "-" then
              match span_digits r1 with
              | (EmptyString, _) => (EmptyString, s)
              | (d, r') => (String e (String sg d), r')
              end
            else
              match span_digits r with
              | (EmptyString, _) => (EmptyString, s)
              | (d, r') => (String e d, r')
              end
        | EmptyString => (EmptyString, s)
        end
      else (EmptyString, s)
  | EmptyString => (EmptyString, s)
  end.

Definition number (s : string) : option (pyval * string) :=
  let (neg, s1) :=
    match s with
    | String "-" r => (true, r)
    | _ => (false, s)
    end in
  match int_part s1 with
  | None => None
  | Some (i, r) =>
      let (f, r1) := frac_part r in
      let (e, r2) := exp_part r1 in
      match f, e with
      | EmptyString, EmptyString =>
          Some (PyInt (if neg then - decimal 0 i else decimal 0 i), r)
      | _, _ =>
          Some (PyFloat ((if neg then "-" else EmptyString) ++ i ++ f ++ e)%string, r2)
      end
  end.

Definition hex_digit (c : ascii) : option N :=
  let n := N_of_ascii c in
  if (48 <=? n)%N && (n <=? 57)%N then Some (n - 48)%N
  else if (65 <=? n)%N && (n <=? 70)%N then Some (n - 55)%N
  else if (97 <=? n)%N && (n <=? 102)%N then Some (n - 87)%N
  else None.

Definition hex4 (a b c d : ascii) : option N :=
  match hex_digit a, hex_digit b, hex_digit c, hex_digit d with
  | Some x, Some y, Some z, Some w => Some (4096 * x + 256 * y + 16 * z + w)%N
  | _, _, _, _ => None
  end.

Definition byte (n : N) : ascii := ascii_of_N n.

(** UTF-8 of a code point; a lone surrogate gets the three-byte form. *)
Definition utf8 (cp : N) (tail : string) : string :=
  if (cp <? 128)%N then String (byte cp) tail
  else if (cp <? 2048)%N then
    String (byte (192 + cp / 64)) (String (byte (128 + cp mod 64)) tail)
  else if (cp <? 65536)%N then
    String (byte (224 + cp / 4096))
      (String (byte (128 + (cp / 64) mod 64))
         (String (byte (128 + cp mod 64)) tail))
  else
    String (byte (240 + cp / 262144))
      (String (byte (128 + (cp / 4096) mod 64))
         (String (byte (128 + (cp / 64) mod 64))
            (String (byte (128 + cp mod 64)) tail))).

Definition is_high (cp : N) : bool := (55296 <=? cp)%N && (cp <=? 56319)%N.
Definition is_low (cp : N) : bool := (56320 <=? cp)%N && (cp <=? 57343)%N.

Definition short_escape (c : ascii) : option ascii :=
  match c with
  | "034" => Some "034"
  | "\" => Some "\"
  | "/" => Some "/"
  | "b" => Some "008"
  | "f" => Some "012"
  | "n" => Some "010"
  | "r" => Some "013"
  | "t" => Some "009"
  | _ => None
  end.

(** The body of a string, from after the opening quote to the closing one. *)
Fixpoint scan_string (s : string) : option (string * string) :=
  match s with
  | EmptyString => None
  | String "034" r => Some (EmptyString, r)
  | String "\" (String "u" (String a (String b (String c (String d r))))) =>
      match hex4 a b c d with
      | None => None
      | Some hi =>
          match r with
          | String "\" (String "u"
              (String a' (String b' (String c' (String d' r'))))) =>
              match hex4 a' b' c' d' with
              | Some lo =>
                  if is_high hi && is_low lo then
                    match scan_string r' with
                    | Some (t, rest) =>
                        Some (utf8 (65536 + (hi - 55296) * 1024 + (lo - 56320)) t,
                              rest)
                    | None => None
                    end
                  else
                    match scan_string r with
                    | Some (t, rest) => Some (utf8 hi t, rest)
                    | None => None
                    end
              | None =>
                  if is_high hi then None else
                  match scan_string r with
                  | Some (t, rest) => Some (utf8 hi t, rest)
                  | None => None
                  end
              end
          | _ =>
              match scan_string r with
              | Some (t, rest) => Some (utf8 hi t, rest)
              | None => None
              end
          end
      end
  | String "\" (String e r) =>
      match short_escape e with
      | Some c =>
          match scan_string r with
          | Some (t, rest) => Some (String c t, rest)
          | None => None
          end
      | None => None
      end
  | String "\" EmptyString => None
  | String c r =>
      if (nat_of_ascii c <? 32)%nat then None else
      match scan_string r with
      | Some (t, rest) => Some (String c t, rest)
      | None => None
      end
  end.

(** [d[k] = v] on an insertion-ordered dict. *)
Fixpoint dict_set (d : Dict) (k : string) (v : pyval) : Dict :=
  match d with
  | [] => [(k, v)]
  | (k', v') :: d' =>
      if String.eqb k' k then (k, v) :: d' else (k', v') :: dict_set d' k v
  end.

Definition starts_with (p s : string) : option string :=
  if String.prefix p s
  then Some (String.substring (String.length p) (String.length s - String.length p) s)
  else None.

Open Scope string_scope.

Definition constant (s : string) : option (pyval * string) :=
  match starts_with "null" s with Some r => Some (PyNone, r) | None =>
  match starts_with "true" s with Some r => Some (PyBool true, r) | None =>
  match starts_with "false" s with Some r => Some (PyBool false, r) | None =>
  None end end end.

Definition non_finite (s : string) : option (pyval * string) :=
  match starts_with "NaN" s with Some r => Some (PyFloat "NaN", r) | None =>
  match starts_with "Infinity" s with Some r => Some (PyFloat "Infinity", r) | None =>
  match starts_with "-Infinity" s with Some r => Some (PyFloat "-Infinity", r) | None =>
  None end end end.

(** One value at the head of [s]; [elements] and [members] read the rest of
    an array after a value and of an object before a key.  The fuel bounds
    the number of values read. *)
Fixpoint value (fuel : nat) (s : string) : option (pyval * string) :=
  match fuel with
  | O => None
  | S fuel =>
      match s with
      | String "034"%char r =>
          match scan_string r with
          | Some (t, rest) => Some (PyStr t, rest)
          | None => None
          end
      | String "{"%char r =>
          match skip_ws r with
          | String "}"%char rest => Some (PyDict [], rest)
          | r1 =>
              match members fuel r1 [] with
              | Some (d, rest) => Some (PyDict d, rest)
              | None => None
              end
          end
      | String "["%char r =>
          match skip_ws r with
          | String "]"%char rest => Some (PyList [], rest)
          | r1 =>
              match elements fuel r1 with
              | Some (l, rest) => Some (PyList l, rest)
              | None => None
              end
          end
      | _ =>
          match constant s with
          | Some x => Some x
          | None =>
              match number s with
              | Some x => Some x
              | None => non_finite s
              end
          end
      end
  end

with elements (fuel : nat) (s : string) : option (list pyval * string) :=
  match fuel with
  | O => None
  | S fuel =>
      match value fuel s with
      | None => None
      | Some (v, r) =>
          match skip_ws r with
          | String "]"%char rest => Some ([v], rest)
          | String ","%char r1 =>
              match elements fuel (skip_ws r1) with
              | Some (l, rest) => Some (v :: l, rest)
              | None => None
              end
          | _ => None
          end
      end
  end

with members (fuel : nat) (s : string) (acc : Dict)
  : option (Dict * string) :=
  match fuel with
  | O => None
  | S fuel =>
      match s with
      | String "034"%char r =>
          match scan_string r with
          | None => None
          | Some (k, r1) =>
              match skip_ws r1 with
              | String ":"%char r2 =>
                  match value fuel (skip_ws r2) with
                  | None => None
                  | Some (v, r3) =>
                      match skip_ws r3 with
                      | String "}"%char rest => Some (dict_set acc k v, rest)
                      | String ","%char r4 =>
                          members fuel (skip_ws r4) (dict_set acc k v)
                      | _ => None
                      end
                  end
              | _ => None
              end
          end
      | _ => None
      end
  end.

Definition loads (s : string) : result pyval :=
  match value (S (String.length s)) (skip_ws s) with
  | Some (v, r) =>
      match skip_ws r with
      | EmptyString => Ok v
      | _ => Raise (JSONDecodeError "Extra data")
      end
  | None => Raise (JSONDecodeError "Expecting value")
  end.

End Json.


(** The text [{"a":1}] and the value it stands for. *)
Definition json_a1 : string :=
  String "{" (String "034" (String "a" (String "034" ":1}"))).

Definition dict_a1 : pyval := PyDict [("a", PyInt 1)].

(** ** A library for the examples

    A server that starts at once, numbers its subprocesses, answers from
    fixed tables and, when [close_fails] is set, raises while the transport
    is being closed. *)
Module Fake.

Record Server : Type := {
  server_tools : list string;
  server_prompts : list string;
  server_resource : string -> list (option string * string);
  close_fails : bool
}.

Definition library (srv : Server) : McpLibrary := {|
  World := nat;
  Handle := nat;
  ClientSession := nat;
  Url := string;
  Tool := string;
  Prompt := string;
  PromptMessage := string * Dict;
  CallToolResult := string * Dict;
  ListToolsResult := list string;
  ListPromptsResult := list string;
  GetPromptResult := list (string * Dict);
  ResourceContents := option string * string;
  ReadResourceResult := list (option string * string);
  tools := fun r => r;
  prompts := fun r => r;
  messages := fun r => r;
  contents := fun r => r;
  mime_type := fst;
  text := snd;
  AnyUrl := fun uri =>
    match uri with
    | EmptyString => Raise (ValidationError "Input should be a valid URL")
    | _ => Ok uri
    end;
  json_loads := Json.loads;
  stdio_client := fun _ w => (Ok w, S w);
  handle_aenter := fun h w => (Ok h, w);
  handle_aexit := fun _ w =>
    if close_fails srv then (Raise (OSError "Broken pipe"), w) else (Ok tt, w);
  session_initialize := fun _ w => (Ok tt, w);
  session_list_tools := fun _ w => (Ok (server_tools srv), w);
  session_call_tool := fun _ name input w => (Ok (name, input), w);
  session_read_resource := fun _ u w => (Ok (server_resource srv u), w);
  session_list_prompts := fun _ w => (Ok (server_prompts srv), w);
  session_get_prompt := fun _ name arguments w => (Ok [(name, arguments)], w)
|}.

Definition resources (uri : string) : list (option string * string) :=
  if String.eqb uri "docs://a" then [(Some "application/json", json_a1)]
  else if String.eqb uri "docs://hello" then [(Some "text/plain", "hello")]
  else if String.eqb uri "docs://two"
       then [(Some "text/plain", "one"); (Some "application/json", "2")]
  else [].

Definition server (broken : bool) : Server := {|
  server_tools := ["read_doc_contents"; "edit_document"];
  server_prompts := ["format"];
  server_resource := resources;
  close_fails := broken
|}.

(** A server whose transport closes cleanly, and one whose close raises. *)
Definition sound : McpLibrary := library (server false).
Definition broken : McpLibrary := library (server true).

Definition blank {L : McpLibrary} : MCPClient := {|
  server_script_path := EmptyString;
  session := None;
  _stdio_client := None
|}.

(** Nothing constructed, nothing called, no subprocess started. *)
Definition start (L : McpLibrary) (w : World) : State := {|
  heap := fun _ => blank;
  calls := [];
  outside := w
|}.

(** [client = MCPClient("mcp_server.py")] at reference 0. *)
Definition constructed (L : McpLibrary) (w : World) : State :=
  snd (__init__ 0 "mcp_server.py" (start L w)).

(** ... followed by [await client.connect()]. *)
Definition connected (L : McpLibrary) (w : World) : State :=
  snd (connect 0 (constructed L w)).

(** ... followed by [await client.cleanup()]. *)
Definition closed (L : McpLibrary) (w : World) : State :=
  snd (cleanup 0 (connected L w)).

(** A block that lists the tools and then raises. *)
Definition failing_block {L : McpLibrary} (client : ref) : M unit :=
  bind (list_tools client) (fun _ => raise (RuntimeError "boom")).

End Fake.

(** [f] under a result: an error stays the error it is. *)
Definition result_map {A B} (f : A -> B) (r : result A) : result B :=
  match r with
  | Ok a => Ok (f a)
  | Raise e => Raise e
  end.

(** ** Callers of the class *)

Section Callers.

Context {L : McpLibrary}.

(** A method call on the facade, as a caller may issue it. *)
Inductive Request : Type :=
| Connect
| Cleanup
| ListTools
| CallTool (tool_name : string) (tool_input : Dict)
| ReadResource (uri : string)
| ListPrompts
| GetPrompt (prompt_name : string) (arguments : option Dict).

(** The state a request leaves, whether the method returned or raised. *)
Definition serve (self : ref) (q : Request) (st : State) : State :=
  match q with
  | Connect => snd (connect self st)
  | Cleanup => snd (cleanup self st)
  | ListTools => snd (list_tools self st)
  | CallTool tool_name tool_input => snd (call_tool self tool_name tool_input st)
  | ReadResource uri => snd (read_resource self uri st)
  | ListPrompts => snd (list_prompts self st)
  | GetPrompt prompt_name arguments =>
      snd (get_prompt self prompt_name arguments st)
  end.

(** A caller that issues the requests one after the other and carries on
    after an error. *)
Definition serve_all (self : ref) (qs : list Request) (st : State) : State :=
  fold_left (fun st q => serve self q st) qs st.

Definition is_data_request (q : Request) : bool :=
  match q with
  | Connect | Cleanup => false
  | _ => true
  end.

(** The call is one of the five data calls, made on the session [s]. *)
Definition data_call_on (s : ClientSession) (c : Call) : Prop :=
  match c with
  | CallListTools s' | CallCallTool s' _ _ | CallReadResource s' _
  | CallListPrompts s' | CallGetPrompt s' _ _ => s' = s
  | _ => False
  end.

(** A session is held only together with a handle. *)
Definition session_has_handle (c : MCPClient) : Prop :=
  session c <> None -> _stdio_client c <> None.

End Callers.

(** ** The demonstration routine

    [test_client] prints, subscripts the descriptors it lists and formats
    values into f-strings.  What it needs beyond [McpLibrary]: *)
Class Formatting (L : McpLibrary) : Type := {
  (** [tool[key]] and [tool.get(key, default)] *)
  tool_getitem : Tool -> string -> result pyval;
  tool_get : Tool -> string -> pyval -> result pyval;
  (** [prompt[key]] and [prompt.get(key, default)] *)
  prompt_getitem : Prompt -> string -> result pyval;
  prompt_get : Prompt -> string -> pyval -> result pyval;
  (** a value and a tool result inside an f-string *)
  str_value : pyval -> string;
  str_result : CallToolResult -> string
}.

(** [str(e)]: the message the exception carries. *)
Definition str_exn (e : exn) : string :=
  match e with
  | RuntimeError msg | IndexError msg | AttributeError msg
  | JSONDecodeError msg | ValidationError msg | McpError msg
  | OSError msg | CancelledError msg | KeyboardInterrupt msg
  | SystemExit msg => msg
  end.


Section Demonstration.

Context {L : McpLibrary} {F : Formatting L}.

(** A computation that also writes to standard output: the list holds the
    argument of every [print] so far. *)
Definition Script (A : Type) : Type :=
  list string -> State -> result A * list string * State.

Definition sret {A} (a : A) : Script A := fun out st => (Ok a, out, st).

Definition sbind {A B} (m : Script A) (k : A -> Script B) : Script B :=
  fun out st =>
    match m out st with
    | (Ok a, out', st') => k a out' st'
    | (Raise e, out', st') => (Raise e, out', st')
    end.

Notation "x <- m ;; k" := (sbind m (fun x => k))
  (at level 100, m at next level, right associativity).
Notation "m ;; k" := (sbind m (fun _ => k))
  (at level 100, right associativity).

(** [await m] for a method of the facade. *)
Definition await {A} (m : M A) : Script A :=
  fun out st => let (r, st') := m st in (r, out, st').

(** An expression that may raise and touches nothing. *)
Definition eval {A} (r : result A) : Script A := fun out st => (r, out, st).

Definition print (line : string) : Script unit :=
  fun out st => (Ok tt, out ++ [line], st).

(** [try: body / except Exception as e: handler(e)]: the handler runs for
    an error that is an [Exception]; any other error leaves the
    statement. *)
Definition try_except (body : Script unit) (handler : exn -> Script unit)
  : Script unit :=
  fun out st =>
    match body out st with
    | (Ok a, out', st') => (Ok a, out', st')
    | (Raise e, out', st') =>
        if is_Exception e then handler e out' st' else (Raise e, out', st')
    end.

(** [for x in l: f(x)] *)
Fixpoint for_each {A} (l : list A) (f : A -> Script unit) : Script unit :=
  match l with
  | [] => sret tt
  | x :: l' => f x ;; for_each l' f
  end.

(** [async with self as client: body], for a body that prints. *)
Definition script_async_with (self : ref) (body : ref -> Script unit)
  : Script unit :=
  fun out st =>
    match __aenter__ self st with
    | (Raise e, st1) => (Raise e, out, st1)
    | (Ok client, st1) =>
        match body client out st1 with
        | (Ok _, out2, st2) =>
            match __aexit__ self None st2 with
            | (Ok _, st3) => (Ok tt, out2, st3)
            | (Raise e', st3) => (Raise e', out2, st3)
            end
        | (Raise e, out2, st2) =>
            match __aexit__ self (Some e) st2 with
            | (Ok v, st3) =>
                if truthy v then (Ok tt, out2, st3) else (Raise e, out2, st3)
            | (Raise e', st3) => (Raise e', out2, st3)
            end
        end
    end.

Definition newline : string := String "010" EmptyString.

(** [f"- {d['name']}: {d.get('description', 'No description')}"] *)
Definition describe {A} (getitem : A -> string -> result pyval)
  (get : A -> string -> pyval -> result pyval) (d : A) : Script string :=
  name <- eval (getitem d "name") ;;
  description <- eval (get d "description" (PyStr "No description")) ;;
  sret ("- " ++ str_value name ++ ": " ++ str_value description)%string.

(** The part of the block that no [try] guards. *)
Definition show_tools (client : ref) : Script unit :=
  print "Available tools:" ;;
  tools <- await (list_tools client) ;;
  for_each tools (fun tool =>
    line <- describe tool_getitem tool_get tool ;;
    print line).

Definition try_tool (client : ref) : Script unit :=
  try_except
    (result <- await (call_tool client "read_doc_contents"
                        [("doc_id", PyStr "report.pdf")]) ;;
     print (newline ++ "Document contents: " ++ str_result result)%string)
    (fun e => print ("Tool call failed: " ++ str_exn e)%string).

Definition try_resource (client : ref) : Script unit :=
  try_except
    (resource_data <- await (read_resource client "docs://documents") ;;
     print (newline ++ "Resource data: " ++ str_value resource_data)%string)
    (fun e => print ("Resource read failed: " ++ str_exn e)%string).

Definition try_prompts (client : ref) : Script unit :=
  try_except
    (prompts <- await (list_prompts client) ;;
     print (newline ++ "Available prompts:")%string ;;
     for_each prompts (fun prompt =>
       line <- describe prompt_getitem prompt_get prompt ;;
       print line))
    (fun e => print ("List prompts failed: " ++ str_exn e)%string).


(** The body of the [async with] statement. *)
Definition test_block (client : ref) : Script unit :=
  show_tools client ;;
  try_tool client ;;
  try_resource client ;;
  try_prompts client.

(** [MCPClient("mcp_server.py")] constructs the facade at the fresh
    reference [obj]. *)
Definition test_client (obj : ref) : Script unit :=
  await (__init__ obj "mcp_server.py") ;;
  script_async_with obj test_block.

End Demonstration.

(** Descriptors of the example servers are their names; they have no
    description. *)
Definition fake_formatting (L : McpLibrary) (name_of : Tool -> string)
  (prompt_name_of : Prompt -> string) (subscriptable : bool) : Formatting L := {|
  tool_getitem := fun t key =>
    if subscriptable then Ok (PyStr (name_of t))
    else Raise (AttributeError "'Tool' object is not subscriptable");
  tool_get := fun _ _ default => Ok default;
  prompt_getitem := fun p key =>
    if subscriptable then Ok (PyStr (prompt_name_of p))
    else Raise (AttributeError "'Prompt' object is not subscriptable");
  prompt_get := fun _ _ default => Ok default;
  str_value := fun v =>
    match v with
    | PyStr s => s
    | _ => "<value>"
    end;
  str_result := fun _ => "<result>"
|}.

(** ** A server with faults

    Like the example server, with a switch for each step of [connect] and
    for the tool listing, the tool call and the close, a resource that is
    not JSON under a JSON tag, and a resource whose read the server
    refuses. *)
Module Faulty.

Record Faults : Type := {
  open_fails : bool;
  enter_fails : bool;
  handshake_fails : bool;
  listing_fails : bool;
  (** the task is cancelled while it awaits the tool call *)
  call_cancelled : bool;
  close_fails : bool
}.

Definition resources (uri : string) : list (option string * string) :=
  if String.eqb uri "docs://bad" then [(Some "application/json", "{oops")]
  else Fake.resources uri.

Definition library (f : Faults) : McpLibrary := {|
  World := nat;
  Handle := nat;
  ClientSession := nat;
  Url := string;
  Tool := string;
  Prompt := string;
  PromptMessage := string * Dict;
  CallToolResult := string * Dict;
  ListToolsResult := list string;
  ListPromptsResult := list string;
  GetPromptResult := list (string * Dict);
  ResourceContents := option string * string;
  ReadResourceResult := list (option string * string);
  tools := fun r => r;
  prompts := fun r => r;
  messages := fun r => r;
  contents := fun r => r;
  mime_type := fst;
  text := snd;
  AnyUrl := fun uri =>
    match uri with
    | EmptyString => Raise (ValidationError "Input should be a valid URL")
    | _ => Ok uri
    end;
  json_loads := Json.loads;
  stdio_client := fun _ w =>
    if open_fails f then (Raise (OSError "No such file or directory"), w)
    else (Ok w, S w);
  handle_aenter := fun h w =>
    if enter_fails f then (Raise (OSError "Connection closed"), w)
    else (Ok h, w);
  handle_aexit := fun _ w =>
    if close_fails f then (Raise (OSError "Broken pipe"), w) else (Ok tt, w);
  session_initialize := fun _ w =>
    if handshake_fails f then (Raise (McpError "Connection closed"), w)
    else (Ok tt, w);
  session_list_tools := fun _ w =>
    if listing_fails f then (Raise (McpError "Method not found"), w)
    else (Ok ["read_doc_contents"; "edit_document"], w);
  session_call_tool := fun _ name input w =>
    if call_cancelled f then (Raise (CancelledError EmptyString), w)
    else (Ok (name, input), w);
  session_read_resource := fun _ u w =>
    if String.eqb u "docs://down" then (Raise (McpError "Unknown resource"), w)
    else (Ok (resources u), w);
  session_list_prompts := fun _ w => (Ok ["format"], w);
  session_get_prompt := fun _ name arguments w => (Ok [(name, arguments)], w)
|}.

Definition no_fault : Faults :=
  {| open_fails := false; enter_fails := false;
     handshake_fails := false; listing_fails := false;
     call_cancelled := false; close_fails := false |}.

(** Everything works but the reads of the two bad resources. *)
Definition reads : McpLibrary := library no_fault.

Definition no_enter : McpLibrary :=
  library {| open_fails := false; enter_fails := true;
             handshake_fails := false; listing_fails := false;
             call_cancelled := false; close_fails := false |}.

Definition no_handshake : McpLibrary :=
  library {| open_fails := false; enter_fails := false;
             handshake_fails := true; listing_fails := false;
             call_cancelled := false; close_fails := false |}.

Definition no_listing : McpLibrary :=
  library {| open_fails := false; enter_fails := false;
             handshake_fails := false; listing_fails := true;
             call_cancelled := false; close_fails := false |}.

(** The listing fails and so does the close. *)
Definition no_listing_no_close : McpLibrary :=
  library {| open_fails := false; enter_fails := false;
             handshake_fails := false; listing_fails := true;
             call_cancelled := false; close_fails := true |}.


(** Descriptors are names; they print as themselves. *)
Definition names (L : McpLibrary) (name_of : Tool -> string)
  (prompt_name_of : Prompt -> string) : Formatting L :=
  fake_formatting L name_of prompt_name_of true.

End Faulty.

(** * Properties *)

(** ** The store *)

Lemma upd_same {L : McpLibrary} (h : ref -> MCPClient) (r : ref) (c : MCPClient) :
  upd h r c r = c.
Proof. unfold upd. now rewrite Nat.eqb_refl. Qed.

Lemma upd_other {L : McpLibrary} (h : ref -> MCPClient) (r r' : ref) (c : MCPClient) :
  r' <> r -> upd h r c r' = h r'.
Proof.
  intros Hne. unfold upd.
  destruct (Nat.eqb_spec r' r) as [E | _]; [contradiction | reflexivity].
Qed.

(** Unfolds the methods down to the store and the collaborators. *)
Ltac run :=
  unfold list_tools, call_tool, read_resource, list_prompts, get_prompt,
    connect, cleanup, __aenter__, __aexit__, __init__,
    set_session, set_stdio_client, modify, extern, getattr, receiver,
    first, lift, bind, ret, raise, not_, after;
  cbn.

(** Replaces what the hypotheses say the fields and the collaborators
    answer, and computes on. *)
Ltac answer :=
  repeat (progress (cbn;
    try match goal with
        | H : ?x = _ |- context [?x] => rewrite H
        end)).

Section Properties.

Context {L : McpLibrary}.

Lemma init_unset (self : ref) (path : string) (st : State) :
  unset (snd (__init__ self path st)) self.
Proof. unfold unset. run. rewrite upd_same. split; reflexivity. Qed.

(** ** The connectivity check *)

(** C1.  While the session field is [None] (as [__init__] leaves it, and as
    a [cleanup] that returned leaves it), each of [list_tools], [call_tool],
    [read_resource], [list_prompts] and [get_prompt] raises [RuntimeError]
    with the not-connected message, and the state is the one it started
    from: no call was recorded and the outside world did not move. *)
Theorem not_connected_raises (self : ref) (st : State) :
  session (heap st self) = None ->
  list_tools self st = (Raise (RuntimeError NOT_CONNECTED), st) /\
  (forall tool_name tool_input,
     call_tool self tool_name tool_input st
     = (Raise (RuntimeError NOT_CONNECTED), st)) /\
  (forall uri,
     read_resource self uri st = (Raise (RuntimeError NOT_CONNECTED), st)) /\
  list_prompts self st = (Raise (RuntimeError NOT_CONNECTED), st) /\
  (forall prompt_name arguments,
     get_prompt self prompt_name arguments st
     = (Raise (RuntimeError NOT_CONNECTED), st)).
Proof.
  intros Hs. repeat split; intros; run; answer; reflexivity.
Qed.

(** ** Reading a resource *)

(** C2.  On a connected facade, when the session answers the read with a
    content list [r :: rest], [read_resource] looks at [r] alone: tagged
    exactly [application/json], the outcome is that of [json_loads] on its
    text; with any other tag, or none, it is the text itself.  So one
    element tagged [application/json] with text [{"a":1}] gives the dict
    [{a: 1}] (for a decoder that reads it so), and one element tagged
    [text/plain] with text [hello] gives the string [hello]. *)
Theorem read_resource_first_content
  (self : ref) (uri : string) (st : State) (s : ClientSession) (u : Url)
  (resp : ReadResourceResult) (w : World)
  (r : ResourceContents) (rest : list ResourceContents) :
  session (heap st self) = Some s ->
  AnyUrl uri = Ok u ->
  session_read_resource s u (outside st) = (Ok resp, w) ->
  contents resp = r :: rest ->
  let st' := after st [CallReadResource s u] w in
  (mime_type r = Some "application/json" ->
   read_resource self uri st = (json_loads (text r), st')) /\
  (mime_type r <> Some "application/json" ->
   read_resource self uri st = (Ok (PyStr (text r)), st')) /\
  (rest = [] -> mime_type r = Some "application/json" ->
   text r = json_a1 ->
   json_loads json_a1 = Ok dict_a1 ->
   read_resource self uri st = (Ok dict_a1, st')) /\
  (rest = [] -> mime_type r = Some "text/plain" -> text r = "hello" ->
   read_resource self uri st = (Ok (PyStr "hello"), st')).
Proof.
  intros Hs Hu Hread Hc st'.
  assert (Hrun : read_resource self uri st
                 = (if is_json (mime_type r)
                    then json_loads (text r)
                    else Ok (PyStr (text r)), st')).
  { run. answer. destruct (is_json (mime_type r)); reflexivity. }
  repeat split.
  - intros Hm. rewrite Hrun, Hm. reflexivity.
  - intros Hm. rewrite Hrun.
    destruct (mime_type r) as [t |] eqn:Et; cbn; [| reflexivity].
    destruct (String.eqb_spec t "application/json") as [E | _];
      [subst t; contradiction | reflexivity].
  - intros _ Hm Ht Hj. rewrite Hrun, Hm, Ht, Hj. reflexivity.
  - intros _ Hm Ht. rewrite Hrun, Hm, Ht. reflexivity.
Qed.

(** C3.  On a connected facade, when the session answers the read with an
    empty content list, [read_resource] raises [IndexError]: it has made the
    read, and it returns no value. *)
Theorem read_resource_empty_contents
  (self : ref) (uri : string) (st : State) (s : ClientSession) (u : Url)
  (resp : ReadResourceResult) (w : World) :
  session (heap st self) = Some s ->
  AnyUrl uri = Ok u ->
  session_read_resource s u (outside st) = (Ok resp, w) ->
  contents resp = [] ->
  read_resource self uri st
  = (Raise (IndexError "list index out of range"),
     after st [CallReadResource s u] w).
Proof.
  intros Hs Hu Hread Hc. run. answer. reflexivity.
Qed.

(** ** Disconnecting *)

(** What [cleanup] does, by the handle field and by how the close ends. *)
Lemma cleanup_cases (self : ref) (st : State) :
  match _stdio_client (heap st self) with
  | None =>
      exists st', cleanup self st = (Ok tt, st') /\ unset st' self /\
                  calls st' = calls st /\ outside st' = outside st
  | Some h =>
      match handle_aexit h (outside st) with
      | (Ok _, w) =>
          exists st', cleanup self st = (Ok tt, st') /\ unset st' self /\
                      calls st' = calls st ++ [CallExit h] /\ outside st' = w
      | (Raise e, w) => cleanup self st = (Raise e, after st [CallExit h] w)
      end
  end.
Proof.
  unfold unset. run.
  destruct (_stdio_client (heap st self)) as [h |]; cbn.
  - destruct (handle_aexit h (outside st)) as [[[] | e] w]; cbn.
    + eexists. split; [reflexivity |]. cbn. rewrite !upd_same. auto.
    + reflexivity.
  - eexists. split; [reflexivity |]. cbn. rewrite !upd_same. auto.
Qed.

(** A [cleanup] that returns leaves both fields [None]. *)
Lemma cleanup_returns_unset (self : ref) (st st' : State) (v : unit) :
  cleanup self st = (Ok v, st') -> unset st' self.
Proof.
  intros H. pose proof (cleanup_cases self st) as C.
  destruct (_stdio_client (heap st self)) as [h |].
  - destruct (handle_aexit h (outside st)) as [[[] | e] w].
    + destruct C as (st1 & E & U & _). rewrite E in H.
      inversion H; subst. exact U.
    + rewrite C in H. discriminate.
  - destruct C as (st1 & E & U & _). rewrite E in H.
    inversion H; subst. exact U.
Qed.

(** Without a handle, [cleanup] returns, calls nothing and leaves both
    fields [None]. *)
Lemma cleanup_without_handle (self : ref) (st : State) :
  _stdio_client (heap st self) = None ->
  exists st', cleanup self st = (Ok tt, st') /\ unset st' self /\
              calls st' = calls st /\ outside st' = outside st.
Proof.
  intros H. pose proof (cleanup_cases self st) as C.
  rewrite H in C. exact C.
Qed.

(** C4, as amended.  [cleanup] closes the transport when a handle exists.
    When there is no handle, or when the close returns, both the handle
    field and the session field are [None] afterwards.  When the close
    raises, [cleanup] raises the same error at once: the close was attempted
    and the store, both fields included, is as it was. *)
Theorem cleanup_clears_unless_close_raises (self : ref) (st : State) :
  (_stdio_client (heap st self) = None ->
   exists st', cleanup self st = (Ok tt, st') /\ unset st' self /\
               calls st' = calls st /\ outside st' = outside st) /\
  (forall h w,
     _stdio_client (heap st self) = Some h ->
     handle_aexit h (outside st) = (Ok tt, w) ->
     exists st', cleanup self st = (Ok tt, st') /\ unset st' self /\
                 calls st' = calls st ++ [CallExit h] /\ outside st' = w) /\
  (forall h e w,
     _stdio_client (heap st self) = Some h ->
     handle_aexit h (outside st) = (Raise e, w) ->
     cleanup self st = (Raise e, after st [CallExit h] w)).
Proof.
  pose proof (cleanup_cases self st) as C. repeat split.
  - apply cleanup_without_handle.
  - intros h w Hh Hx. rewrite Hh, Hx in C. exact C.
  - intros h e w Hh Hx. rewrite Hh, Hx in C. exact C.
Qed.

(** C8, as amended.  On a facade without a handle, [cleanup] returns
    without raising, makes no call and leaves both fields [None].  So after
    a [cleanup] that returned, both fields are [None], and a second
    [cleanup] returns too, calls nothing, leaves the outside as it was and
    both fields [None].  When the close of the first [cleanup] raises, that
    [cleanup] raises, the handle stays in its field, and a second [cleanup]
    attempts the close of the same handle again. *)
Theorem cleanup_twice (self : ref) (st : State) :
  (_stdio_client (heap st self) = None ->
   exists st', cleanup self st = (Ok tt, st') /\ unset st' self /\
               calls st' = calls st /\ outside st' = outside st) /\
  (forall st1,
     cleanup self st = (Ok tt, st1) ->
     unset st1 self /\
     exists st2, cleanup self st1 = (Ok tt, st2) /\ unset st2 self /\
                 calls st2 = calls st1 /\ outside st2 = outside st1) /\
  (forall h e w,
     _stdio_client (heap st self) = Some h ->
     handle_aexit h (outside st) = (Raise e, w) ->
     cleanup self st = (Raise e, after st [CallExit h] w) /\
     _stdio_client (heap (after st [CallExit h] w) self) = Some h /\
     exists r st2,
       cleanup self (after st [CallExit h] w) = (r, st2) /\
       calls st2 = calls st ++ [CallExit h; CallExit h]).
Proof.
  split; [apply cleanup_without_handle | split].
  - intros st1 H1.
    pose proof (cleanup_returns_unset self st st1 tt H1) as U.
    split; [exact U |].
    apply cleanup_without_handle. exact (proj2 U).
  - intros h e w Hh Hx.
    pose proof (cleanup_cases self st) as C. rewrite Hh, Hx in C.
    split; [exact C |]. split; [exact Hh |].
    pose proof (cleanup_cases self (after st [CallExit h] w)) as C2.
    cbn [heap outside after] in C2. rewrite Hh in C2.
    destruct (handle_aexit h w) as [[[] | e2] w2].
    + destruct C2 as (st2 & E2 & _ & Hc2 & _).
      exists (Ok tt), st2. split; [exact E2 |].
      rewrite Hc2. cbn. now rewrite <- app_assoc.
    + eexists. eexists. split; [exact C2 |].
      cbn. now rewrite <- app_assoc.
Qed.

(** ** Scoped acquisition *)

(** When [connect] raises, the block does not run and neither does
    [cleanup]. *)
Lemma async_with_connect_raises (self : ref) (body : ref -> M unit)
  (st st1 : State) (e : exn) :
  connect self st = (Raise e, st1) ->
  async_with self body st = (Raise e, st1).
Proof.
  intros H. unfold async_with, __aenter__, bind. rewrite H. reflexivity.
Qed.

(** C5, as amended.  Entering the scope runs [connect] and, when it
    returns, hands the block the facade itself.  However the block ends, by
    returning or by raising, [cleanup] then runs once on the state the block
    left.  When that [cleanup] returns, the outcome of the block is the
    outcome of the statement and both fields are [None]; when it raises
    (the close raised), the statement raises that error. *)
Theorem async_with_cleanup_once (self : ref) (body : ref -> M unit)
  (st st1 : State) :
  connect self st = (Ok tt, st1) ->
  __aenter__ self st = (Ok self, st1) /\
  forall rb st2,
    body self st1 = (rb, st2) ->
    snd (async_with self body st) = snd (cleanup self st2) /\
    (forall st3,
       cleanup self st2 = (Ok tt, st3) ->
       async_with self body st = (rb, st3) /\ unset st3 self) /\
    (forall e st3,
       cleanup self st2 = (Raise e, st3) ->
       async_with self body st = (Raise e, st3)).
Proof.
  intros Hc.
  assert (He : __aenter__ self st = (Ok self, st1)).
  { unfold __aenter__, bind, ret. rewrite Hc. reflexivity. }
  split; [exact He |].
  intros rb st2 Hb.
  unfold async_with. rewrite He, Hb. unfold __aexit__, bind, ret.
  destruct (cleanup self st2) as [[[] | e'] st3] eqn:Hcl;
    destruct rb as [[] | e]; cbn;
    (split; [reflexivity |]);
    (split;
     [ intros st4 E;
       first [ discriminate E
             | inversion E; subst; split;
               [reflexivity | eapply cleanup_returns_unset; eassumption] ]
     | intros e0 st4 E;
       first [ discriminate E | inversion E; subst; reflexivity ] ]).
Qed.

(** ** Prompts and listings *)

(** C6.  [get_prompt] with [arguments] omitted and with an empty mapping are
    the same computation.  On a connected facade both make the one call
    [get_prompt(prompt_name, {})] on the session and return the [messages]
    field of its answer. *)
Theorem get_prompt_default_arguments (self : ref) (prompt_name : string)
  (st : State) :
  get_prompt self prompt_name None st
  = get_prompt self prompt_name (Some empty_dict) st /\
  (forall s resp w,
     session (heap st self) = Some s ->
     session_get_prompt s prompt_name empty_dict (outside st) = (Ok resp, w) ->
     get_prompt self prompt_name None st
     = (Ok (messages resp), after st [CallGetPrompt s prompt_name empty_dict] w)).
Proof.
  split; [reflexivity |].
  intros s resp w Hs Hg. run. answer. reflexivity.
Qed.

(** C7.  On a connected facade, [list_tools] returns the [tools] field of
    the session's answer and [list_prompts] its [prompts] field, as they
    are: when the answer holds [n] items, so does the list returned, with
    the same item at every index. *)
Theorem listings_verbatim (self : ref) (st : State) (s : ClientSession) :
  session (heap st self) = Some s ->
  (forall resp w n,
     session_list_tools s (outside st) = (Ok resp, w) ->
     length (tools resp) = n ->
     exists l,
       list_tools self st = (Ok l, after st [CallListTools s] w) /\
       l = tools resp /\ length l = n /\
       forall i, nth_error l i = nth_error (tools resp) i) /\
  (forall resp w n,
     session_list_prompts s (outside st) = (Ok resp, w) ->
     length (prompts resp) = n ->
     exists l,
       list_prompts self st = (Ok l, after st [CallListPrompts s] w) /\
       l = prompts resp /\ length l = n /\
       forall i, nth_error l i = nth_error (prompts resp) i).
Proof.
  intros Hs. split; intros resp w n Hl Hn; eexists;
    (split; [run; answer; reflexivity | auto]).
Qed.

(** ** Connecting again *)

(** C9.  [connect] on a facade that already holds a handle and a session
    does not look at them.  Whatever the collaborators answer, none of the
    calls it makes is a close, of the prior handle or of any other; and when
    the new transport opens and the new session initializes, [connect]
    returns with the handle and session fields overwritten by the new
    pair. *)
Theorem connect_again_leaks (self : ref) (st : State)
  (h0 : Handle) (s0 : ClientSession) :
  _stdio_client (heap st self) = Some h0 ->
  session (heap st self) = Some s0 ->
  let p := {| command := "python";
              args := [server_script_path (heap st self)] |} in
  (exists cs, calls (snd (connect self st)) = calls st ++ cs /\
              forall h, ~ In (CallExit h) cs) /\
  (forall h1 w1 s1 w2 w3,
     stdio_client p (outside st) = (Ok h1, w1) ->
     handle_aenter h1 w1 = (Ok s1, w2) ->
     session_initialize s1 w2 = (Ok tt, w3) ->
     exists st',
       connect self st = (Ok tt, st') /\
       _stdio_client (heap st' self) = Some h1 /\
       session (heap st' self) = Some s1 /\
       calls st' = calls st ++ [CallStdioClient p; CallEnter h1; CallInitialize s1] /\
       outside st' = w3).
Proof.
  intros Hh Hs p. split.
  - run. fold p.
    destruct (stdio_client p (outside st)) as [[h1 | e1] w1]; cbn.
    + rewrite !upd_same. cbn.
      destruct (handle_aenter h1 w1) as [[s1 | e2] w2]; cbn.
      * rewrite !upd_same. cbn.
        destruct (session_initialize s1 w2) as [[[] | e3] w3]; cbn;
          rewrite <- !app_assoc; eexists; (split; [reflexivity |]);
          cbn; intros h [E | [E | [E | []]]]; discriminate E.
      * rewrite <- !app_assoc. eexists. split; [reflexivity |].
        cbn. intros h [E | [E | []]]; discriminate E.
    + eexists. split; [reflexivity |].
      cbn. intros h [E | []]; discriminate E.
  - intros h1 w1 s1 w2 w3 H1 H2 H3. run. fold p. rewrite H1. cbn.
    rewrite !upd_same. cbn. rewrite H2. cbn.
    rewrite !upd_same. cbn. rewrite H3. cbn.
    eexists. split; [reflexivity |]. cbn.
    rewrite !upd_same. cbn. rewrite <- !app_assoc. cbn. auto.
Qed.

(** ** The frame of the data-access operations *)

(** C10.  Each of [list_tools], [call_tool], [read_resource],
    [list_prompts] and [get_prompt] leaves the store as it found it,
    whether it returns or raises: the session field, the handle field and
    the script path of the facade, and of every other object, are the
    same after the call as before. *)
Theorem data_access_keeps_facade (self : ref) (st : State) :
  heap (snd (list_tools self st)) = heap st /\
  (forall tool_name tool_input,
     heap (snd (call_tool self tool_name tool_input st)) = heap st) /\
  (forall uri, heap (snd (read_resource self uri st)) = heap st) /\
  heap (snd (list_prompts self st)) = heap st /\
  (forall prompt_name arguments,
     heap (snd (get_prompt self prompt_name arguments st)) = heap st).
Proof.
  repeat split; intros; run;
    destruct (session (heap st self)) as [s |] eqn:Hs; answer;
    try reflexivity.
  - destruct (session_list_tools s (outside st)) as [[x | e] w]; reflexivity.
  - destruct (session_call_tool s tool_name tool_input (outside st))
      as [[x | e] w]; reflexivity.
  - destruct (AnyUrl uri) as [u | e]; cbn; [| reflexivity].
    destruct (session_read_resource s u (outside st)) as [[x | e] w]; cbn;
      [| reflexivity].
    destruct (contents x) as [| r rest]; cbn; [reflexivity |].
    destruct (is_json (mime_type r)); reflexivity.
  - destruct (session_list_prompts s (outside st)) as [[x | e] w]; reflexivity.
  - destruct (session_get_prompt s prompt_name _ (outside st))
      as [[x | e] w]; reflexivity.
Qed.

End Properties.

(** * Runs against the example servers *)

(** The claim that [cleanup] clears both fields even when the close raises
    fails on the server whose close raises: [cleanup] on the connected
    facade raises, and neither field is [None] afterwards. *)
Lemma cleanup_close_raises_counterexample :
  _stdio_client (heap (Fake.connected Fake.broken 0) 0) = Some 0 /\
  fst (cleanup (L := Fake.broken) 0 (Fake.connected Fake.broken 0))
  = Raise (OSError "Broken pipe") /\
  session (heap (snd (cleanup (L := Fake.broken) 0
                        (Fake.connected Fake.broken 0))) 0) = Some 0 /\
  _stdio_client (heap (snd (cleanup (L := Fake.broken) 0
                              (Fake.connected Fake.broken 0))) 0) = Some 0 /\
  ~ unset (snd (cleanup (L := Fake.broken) 0 (Fake.connected Fake.broken 0))) 0.
Proof.
  repeat split; try reflexivity.
  intros [H _]. vm_compute in H. discriminate H.
Qed.

(** The claim that both fields are unset after the scope is left fails on
    the same server: the block returns, the close raises, and the statement
    ends with that error and both fields still set. *)
Lemma async_with_close_raises_counterexample :
  async_with (L := Fake.broken) 0 (fun _ => ret tt)
    (Fake.constructed Fake.broken 0)
  = (Raise (OSError "Broken pipe"),
     after (Fake.connected Fake.broken 0) [@CallExit Fake.broken 0] 1) /\
  session (heap (snd (async_with (L := Fake.broken) 0 (fun _ => ret tt)
                        (Fake.constructed Fake.broken 0))) 0) = Some 0 /\
  _stdio_client (heap (snd (async_with (L := Fake.broken) 0 (fun _ => ret tt)
                              (Fake.constructed Fake.broken 0))) 0) = Some 0 /\
  ~ unset (snd (async_with (L := Fake.broken) 0 (fun _ => ret tt)
                  (Fake.constructed Fake.broken 0))) 0.
Proof.
  repeat split; try reflexivity.
  intros [H _]. vm_compute in H. discriminate H.
Qed.

(** The claim that two calls of [cleanup] in a row do not raise and leave
    both fields unset fails on the same server: on the connected facade
    the first call raises, the second raises again, and after each of them
    neither field is [None]. *)
Lemma cleanup_twice_counterexample :
  fst (cleanup (L := Fake.broken) 0 (Fake.connected Fake.broken 0))
  = Raise (OSError "Broken pipe") /\
  ~ unset (snd (cleanup (L := Fake.broken) 0 (Fake.connected Fake.broken 0))) 0 /\
  fst (cleanup (L := Fake.broken) 0
         (snd (cleanup (L := Fake.broken) 0 (Fake.connected Fake.broken 0))))
  = Raise (OSError "Broken pipe") /\
  ~ unset (snd (cleanup (L := Fake.broken) 0
                  (snd (cleanup (L := Fake.broken) 0
                          (Fake.connected Fake.broken 0))))) 0.
Proof.
  split; [reflexivity |]. split.
  - intros [H _]. vm_compute in H. discriminate H.
  - split; [reflexivity |].
    intros [H _]. vm_compute in H. discriminate H.
Qed.

(** A facade just constructed, and one connected and then cleaned up, both
    refuse to list tools or read a resource. *)
Lemma not_connected_raises_witness :
  session (heap (Fake.constructed Fake.sound 0) 0) = None /\
  list_tools (L := Fake.sound) 0 (Fake.constructed Fake.sound 0)
  = (Raise (RuntimeError NOT_CONNECTED), Fake.constructed Fake.sound 0) /\
  read_resource (L := Fake.sound) 0 "docs://a" (Fake.closed Fake.sound 0)
  = (Raise (RuntimeError NOT_CONNECTED), Fake.closed Fake.sound 0).
Proof.
  split; [reflexivity |]. split.
  - apply (not_connected_raises (L := Fake.sound) 0
             (Fake.constructed Fake.sound 0)).
    reflexivity.
  - apply (not_connected_raises (L := Fake.sound) 0 (Fake.closed Fake.sound 0)).
    reflexivity.
Defined.

(** The two resources of the example server, decoded by [Json.loads]. *)
Lemma read_resource_first_content_witness :
  read_resource (L := Fake.sound) 0 "docs://a" (Fake.connected Fake.sound 0)
  = (Ok dict_a1,
     after (Fake.connected Fake.sound 0)
       [@CallReadResource Fake.sound 0 "docs://a"] 1) /\
  read_resource (L := Fake.sound) 0 "docs://hello" (Fake.connected Fake.sound 0)
  = (Ok (PyStr "hello"),
     after (Fake.connected Fake.sound 0)
       [@CallReadResource Fake.sound 0 "docs://hello"] 1).
Proof.
  split.
  - assert (H := read_resource_first_content (L := Fake.sound)
                   0 "docs://a" (Fake.connected Fake.sound 0) 0 "docs://a"
                   (Fake.resources "docs://a") 1
                   (Some "application/json", json_a1) []
                   eq_refl eq_refl eq_refl eq_refl).
    apply H; reflexivity.
  - assert (H := read_resource_first_content (L := Fake.sound)
                   0 "docs://hello" (Fake.connected Fake.sound 0) 0
                   "docs://hello" (Fake.resources "docs://hello") 1
                   (Some "text/plain", "hello") []
                   eq_refl eq_refl eq_refl eq_refl).
    apply H; reflexivity.
Defined.

(** A resource the example server answers with no content. *)
Lemma read_resource_empty_contents_witness :
  session (heap (Fake.connected Fake.sound 0) 0) = Some 0 /\
  @contents Fake.sound (Fake.resources "docs://none") = [] /\
  read_resource (L := Fake.sound) 0 "docs://none" (Fake.connected Fake.sound 0)
  = (Raise (IndexError "list index out of range"),
     after (Fake.connected Fake.sound 0)
       [@CallReadResource Fake.sound 0 "docs://none"] 1).
Proof.
  split; [reflexivity |]. split; [reflexivity |].
  apply (read_resource_empty_contents (L := Fake.sound)
           0 "docs://none" (Fake.connected Fake.sound 0) 0 "docs://none"
           (Fake.resources "docs://none") 1);
    reflexivity.
Defined.

(** [cleanup] on the server that closes cleanly and on the one that does
    not. *)
Lemma cleanup_clears_unless_close_raises_witness :
  (exists st',
     cleanup (L := Fake.sound) 0 (Fake.connected Fake.sound 0) = (Ok tt, st') /\
     unset st' 0 /\
     calls st' = calls (Fake.connected Fake.sound 0)
                 ++ [@CallExit Fake.sound 0] /\
     outside st' = 1) /\
  cleanup (L := Fake.broken) 0 (Fake.connected Fake.broken 0)
  = (Raise (OSError "Broken pipe"),
     after (Fake.connected Fake.broken 0) [@CallExit Fake.broken 0] 1).
Proof.
  split.
  - apply (cleanup_clears_unless_close_raises (L := Fake.sound) 0
             (Fake.connected Fake.sound 0)); reflexivity.
  - apply (cleanup_clears_unless_close_raises (L := Fake.broken) 0
             (Fake.connected Fake.broken 0)); reflexivity.
Defined.

(** A block that raises: the statement raises the same error, after one
    [cleanup]. *)
Lemma async_with_cleanup_once_witness :
  connect (L := Fake.sound) 0 (Fake.constructed Fake.sound 0)
  = (Ok tt, Fake.connected Fake.sound 0) /\
  async_with (L := Fake.sound) 0 Fake.failing_block
    (Fake.constructed Fake.sound 0)
  = (Raise (RuntimeError "boom"),
     snd (cleanup (L := Fake.sound) 0
            (snd (Fake.failing_block 0 (Fake.connected Fake.sound 0))))) /\
  unset (snd (cleanup (L := Fake.sound) 0
                (snd (Fake.failing_block 0 (Fake.connected Fake.sound 0))))) 0.
Proof.
  split; [reflexivity |].
  destruct (async_with_cleanup_once (L := Fake.sound) 0 Fake.failing_block
              (Fake.constructed Fake.sound 0) (Fake.connected Fake.sound 0)
              eq_refl) as [_ H].
  destruct (H (Raise (RuntimeError "boom"))
              (snd (Fake.failing_block 0 (Fake.connected Fake.sound 0)))
              eq_refl) as (_ & Hok & _).
  apply Hok. reflexivity.
Defined.

(** The prompt [format] asked for without arguments. *)
Lemma get_prompt_default_arguments_witness :
  get_prompt (L := Fake.sound) 0 "format" None (Fake.connected Fake.sound 0)
  = get_prompt (L := Fake.sound) 0 "format" (Some empty_dict)
      (Fake.connected Fake.sound 0) /\
  get_prompt (L := Fake.sound) 0 "format" None (Fake.connected Fake.sound 0)
  = (Ok [("format", empty_dict)],
     after (Fake.connected Fake.sound 0)
       [@CallGetPrompt Fake.sound 0 "format" empty_dict] 1).
Proof.
  destruct (get_prompt_default_arguments (L := Fake.sound) 0 "format"
              (Fake.connected Fake.sound 0)) as [Heq Hcall].
  split; [exact Heq |].
  apply (Hcall 0 [("format", empty_dict)] 1); reflexivity.
Defined.

(** The two tools of the example server, in its order. *)
Lemma listings_verbatim_witness :
  session (heap (Fake.connected Fake.sound 0) 0) = Some 0 /\
  (exists l,
     list_tools (L := Fake.sound) 0 (Fake.connected Fake.sound 0)
     = (Ok l, after (Fake.connected Fake.sound 0)
                [@CallListTools Fake.sound 0] 1) /\
     l = ["read_doc_contents"; "edit_document"] /\ length l = 2 /\
     forall i, nth_error l i
               = nth_error ["read_doc_contents"; "edit_document"] i).
Proof.
  split; [reflexivity |].
  apply (listings_verbatim (L := Fake.sound) 0 (Fake.connected Fake.sound 0) 0
           eq_refl); reflexivity.
Defined.

(** Connect, then [cleanup] twice, on the server that closes cleanly and on
    the one whose close raises. *)
Lemma cleanup_twice_witness :
  (unset (Fake.closed Fake.sound 0) 0 /\
   exists st2,
     cleanup (L := Fake.sound) 0 (Fake.closed Fake.sound 0) = (Ok tt, st2) /\
     unset st2 0 /\
     calls st2 = calls (Fake.closed Fake.sound 0) /\
     outside st2 = outside (Fake.closed Fake.sound 0)) /\
  (cleanup (L := Fake.broken) 0 (Fake.connected Fake.broken 0)
   = (Raise (OSError "Broken pipe"),
      after (Fake.connected Fake.broken 0) [@CallExit Fake.broken 0] 1) /\
   _stdio_client
     (heap (after (Fake.connected Fake.broken 0) [@CallExit Fake.broken 0] 1) 0)
   = Some 0 /\
   exists r st2,
     cleanup (L := Fake.broken) 0
       (after (Fake.connected Fake.broken 0) [@CallExit Fake.broken 0] 1)
     = (r, st2) /\
     calls st2
     = calls (Fake.connected Fake.broken 0)
       ++ [@CallExit Fake.broken 0; @CallExit Fake.broken 0]).
Proof.
  split.
  - apply (cleanup_twice (L := Fake.sound) 0 (Fake.connected Fake.sound 0)).
    reflexivity.
  - destruct (cleanup_twice (L := Fake.broken) 0 (Fake.connected Fake.broken 0))
      as (_ & _ & H).
    exact (H 0 (OSError "Broken pipe") 1 eq_refl eq_refl).
Defined.

(** Connect twice: a second subprocess, and no close of the first. *)
Lemma connect_again_leaks_witness :
  _stdio_client (heap (Fake.connected Fake.sound 0) 0) = Some 0 /\
  session (heap (Fake.connected Fake.sound 0) 0) = Some 0 /\
  exists st',
    connect (L := Fake.sound) 0 (Fake.connected Fake.sound 0) = (Ok tt, st') /\
    _stdio_client (heap st' 0) = Some 1 /\
    session (heap st' 0) = Some 1 /\
    calls st'
    = calls (Fake.connected Fake.sound 0)
      ++ [CallStdioClient {| command := "python"; args := ["mcp_server.py"] |};
          @CallEnter Fake.sound 1; @CallInitialize Fake.sound 1] /\
    outside st' = 2.
Proof.
  split; [reflexivity |]. split; [reflexivity |].
  destruct (connect_again_leaks (L := Fake.sound) 0
              (Fake.connected Fake.sound 0) 0 0 eq_refl eq_refl) as [_ H].
  apply (H 1 2 1 2 2); reflexivity.
Defined.

(** * Further properties of the facade *)

Section Delegation.

Context {L : McpLibrary}.

(** X1.  On a connected facade, [list_tools], [call_tool], [list_prompts] and
    [get_prompt] are the session's call and nothing else: one call is
    recorded, with the caller's arguments as given ([{}] for omitted prompt
    arguments); what the session returns is returned (its list field for
    the three that unwrap one) and what it raises is raised unchanged. *)
Theorem delegation_is_transparent (self : ref) (st : State)
  (s : ClientSession) :
  session (heap st self) = Some s ->
  list_tools self st
  = (let (r, w) := session_list_tools s (outside st) in
     (result_map tools r, after st [CallListTools s] w)) /\
  (forall tool_name tool_input,
     call_tool self tool_name tool_input st
     = (let (r, w) := session_call_tool s tool_name tool_input (outside st) in
        (r, after st [CallCallTool s tool_name tool_input] w))) /\
  list_prompts self st
  = (let (r, w) := session_list_prompts s (outside st) in
     (result_map prompts r, after st [CallListPrompts s] w)) /\
  (forall prompt_name arguments,
     let d := match arguments with Some d => d | None => empty_dict end in
     get_prompt self prompt_name arguments st
     = (let (r, w) := session_get_prompt s prompt_name d (outside st) in
        (result_map messages r, after st [CallGetPrompt s prompt_name d] w))).
Proof.
  intros Hs. repeat split; intros; run; answer.
  - destruct (session_list_tools s (outside st)) as [[x | e] w]; reflexivity.
  - destruct (session_call_tool s tool_name tool_input (outside st))
      as [[x | e] w]; reflexivity.
  - destruct (session_list_prompts s (outside st)) as [[x | e] w]; reflexivity.
  - destruct (session_get_prompt s prompt_name _ (outside st))
      as [[x | e] w]; reflexivity.
Qed.

(** X2.  The three ways [read_resource] fails on a connected facade besides the
    empty content list.  A URI that [AnyUrl] rejects raises before anything
    is asked of the session: no call, state untouched.  An error of the
    session's read is raised unchanged.  A first element tagged
    [application/json] whose text the decoder rejects raises the decoder's
    error, after the read was made. *)
Theorem read_resource_failures (self : ref) (uri : string) (st : State)
  (s : ClientSession) :
  session (heap st self) = Some s ->
  (forall e, AnyUrl uri = Raise e -> read_resource self uri st = (Raise e, st)) /\
  (forall u e w,
     AnyUrl uri = Ok u ->
     session_read_resource s u (outside st) = (Raise e, w) ->
     read_resource self uri st = (Raise e, after st [CallReadResource s u] w)) /\
  (forall u resp w r rest e,
     AnyUrl uri = Ok u ->
     session_read_resource s u (outside st) = (Ok resp, w) ->
     contents resp = r :: rest ->
     mime_type r = Some "application/json" ->
     json_loads (text r) = Raise e ->
     read_resource self uri st = (Raise e, after st [CallReadResource s u] w)).
Proof.
  intros Hs. repeat split; intros; run; answer; reflexivity.
Qed.

(** The store after a [cleanup] that returned: the facade keeps its path
    and nothing else of the store moved. *)
Lemma cleanup_heap (self : ref) (st st' : State) :
  cleanup self st = (Ok tt, st') ->
  heap st' self = {| server_script_path := server_script_path (heap st self);
                     session := None;
                     _stdio_client := None |} /\
  (forall r, r <> self -> heap st' r = heap st r).
Proof.
  run. destruct (_stdio_client (heap st self)) as [h |]; cbn.
  - destruct (handle_aexit h (outside st)) as [[[] | e] w]; cbn;
      intros H; inversion H; subst; cbn.
    repeat (rewrite ?upd_same; cbn). split; [reflexivity |].
    intros r Hne. now rewrite !upd_other.
  - intros H; inversion H; subst; cbn.
    repeat (rewrite ?upd_same; cbn). split; [reflexivity |].
    intros r Hne. now rewrite !upd_other.
Qed.

(** ** Connecting *)

(** What [connect] does, by what the collaborators answer. *)
Lemma connect_cases (self : ref) (st : State) :
  let p := {| command := "python";
              args := [server_script_path (heap st self)] |} in
  match stdio_client p (outside st) with
  | (Raise e, w) => connect self st = (Raise e, after st [CallStdioClient p] w)
  | (Ok h, w) =>
      match handle_aenter h w with
      | (Raise e, w') =>
          exists st',
            connect self st = (Raise e, st') /\
            heap st' self
            = {| server_script_path := server_script_path (heap st self);
                 session := session (heap st self);
                 _stdio_client := Some h |} /\
            (forall r, r <> self -> heap st' r = heap st r) /\
            calls st' = calls st ++ [CallStdioClient p; CallEnter h] /\
            outside st' = w'
      | (Ok s, w') =>
          exists st',
            connect self st = (fst (session_initialize s w'), st') /\
            heap st' self
            = {| server_script_path := server_script_path (heap st self);
                 session := Some s;
                 _stdio_client := Some h |} /\
            (forall r, r <> self -> heap st' r = heap st r) /\
            calls st'
            = calls st ++ [CallStdioClient p; CallEnter h; CallInitialize s] /\
            outside st' = snd (session_initialize s w')
      end
  end.
Proof.
  intros p. run. fold p.
  destruct (stdio_client p (outside st)) as [[h | e] w]; cbn;
    [| reflexivity].
  rewrite !upd_same. cbn.
  destruct (handle_aenter h w) as [[s | e] w']; cbn.
  - rewrite !upd_same. cbn.
    destruct (session_initialize s w') as [r w'']. cbn.
    eexists. split; [reflexivity |]. cbn.
    rewrite !upd_same, <- !app_assoc. cbn.
    repeat split. intros r0 Hne. now rewrite !upd_other.
  - eexists. split; [reflexivity |]. cbn.
    rewrite !upd_same, <- !app_assoc. cbn.
    repeat split. intros r0 Hne. now rewrite !upd_other.
Qed.

(** X3.  [connect] does not undo what it did when a later step raises.  If
    opening the transport raises, the facade is as it was.  If entering the
    handle raises, the handle field already holds the new handle while the
    session field keeps what it held.  If the handshake raises, both fields
    hold the new pair; in neither case is the new handle closed. *)
Theorem connect_failure_stages (self : ref) (st : State) :
  let p := {| command := "python";
              args := [server_script_path (heap st self)] |} in
  (forall e w,
     stdio_client p (outside st) = (Raise e, w) ->
     connect self st = (Raise e, after st [CallStdioClient p] w)) /\
  (forall h w e w',
     stdio_client p (outside st) = (Ok h, w) ->
     handle_aenter h w = (Raise e, w') ->
     exists st',
       connect self st = (Raise e, st') /\
       _stdio_client (heap st' self) = Some h /\
       session (heap st' self) = session (heap st self) /\
       calls st' = calls st ++ [CallStdioClient p; CallEnter h] /\
       outside st' = w') /\
  (forall h w s w' e w'',
     stdio_client p (outside st) = (Ok h, w) ->
     handle_aenter h w = (Ok s, w') ->
     session_initialize s w' = (Raise e, w'') ->
     exists st',
       connect self st = (Raise e, st') /\
       _stdio_client (heap st' self) = Some h /\
       session (heap st' self) = Some s /\
       calls st'
       = calls st ++ [CallStdioClient p; CallEnter h; CallInitialize s] /\
       outside st' = w'').
Proof.
  intros p. pose proof (connect_cases self st) as C. cbv zeta in C. fold p in C.
  repeat split.
  - intros e w H1. rewrite H1 in C. exact C.
  - intros h w e w' H1 H2. rewrite H1, H2 in C.
    destruct C as (st' & E & Hh & _ & Hc & Ho).
    exists st'. rewrite Hh. auto.
  - intros h w s w' e w'' H1 H2 H3. rewrite H1, H2, H3 in C.
    destruct C as (st' & E & Hh & _ & Hc & Ho).
    exists st'. rewrite Hh. auto.
Qed.

(** [connect] on a facade just constructed, when its three steps return. *)
Lemma init_connect_returns (self : ref) (path : string) (st : State)
  (h : Handle) (s : ClientSession) (w1 w2 w3 : World) :
  let p := {| command := "python"; args := [path] |} in
  stdio_client p (outside st) = (Ok h, w1) ->
  handle_aenter h w1 = (Ok s, w2) ->
  session_initialize s w2 = (Ok tt, w3) ->
  exists st',
    connect self (snd (__init__ self path st)) = (Ok tt, st') /\
    heap st' self = {| server_script_path := path;
                       session := Some s;
                       _stdio_client := Some h |} /\
    (forall r, r <> self -> heap st' r = heap st r) /\
    calls st' = calls st ++ [CallStdioClient p; CallEnter h; CallInitialize s] /\
    outside st' = w3.
Proof.
  intros p H1 H2 H3.
  set (st0 := snd (__init__ self path st)).
  assert (Hst0 : heap st0 self
                 = {| server_script_path := path; session := None;
                      _stdio_client := None |} /\
                 (forall r, r <> self -> heap st0 r = heap st r) /\
                 calls st0 = calls st /\ outside st0 = outside st).
  { unfold st0. run. rewrite upd_same. repeat split.
    intros r Hne. now rewrite upd_other. }
  destruct Hst0 as (Hh0 & Hf0 & Hc0 & Ho0).
  pose proof (connect_cases self st0) as C. cbv zeta in C.
  rewrite Hh0 in C.
  cbn [fst snd server_script_path session _stdio_client] in C. fold p in C.
  rewrite Ho0, H1, H2, H3 in C.
  cbn [fst snd server_script_path session _stdio_client] in C.
  destruct C as (st' & E & Hh & Hf & Hc & Ho).
  exists st'. rewrite E, Hh, Hc, Hc0. repeat split; auto.
  intros r Hne. rewrite Hf, Hf0; auto.
Qed.

(** X4.  Constructing a facade with a path and connecting it starts the server
    as [python path]: from any state, when the transport opens and the
    handshake returns, [connect] returns, the three calls recorded are the
    opening with command [python] and the path as only argument, the entry
    of the handle and the handshake, the facade holds the path and the new
    pair, and no other object has changed. *)
Theorem connect_starts_script (self : ref) (path : string) (st : State)
  (h : Handle) (s : ClientSession) (w1 w2 w3 : World) :
  let p := {| command := "python"; args := [path] |} in
  stdio_client p (outside st) = (Ok h, w1) ->
  handle_aenter h w1 = (Ok s, w2) ->
  session_initialize s w2 = (Ok tt, w3) ->
  exists st',
    bind (__init__ self path) (fun _ => connect self) st = (Ok tt, st') /\
    heap st' self = {| server_script_path := path;
                       session := Some s;
                       _stdio_client := Some h |} /\
    (forall r, r <> self -> heap st' r = heap st r) /\
    calls st' = calls st ++ [CallStdioClient p; CallEnter h; CallInitialize s] /\
    outside st' = w3.
Proof.
  intros p H1 H2 H3.
  destruct (init_connect_returns self path st h s w1 w2 w3 H1 H2 H3)
    as (st' & E & Hrest).
  exists st'. split; [| exact Hrest].
  unfold bind.
  destruct (__init__ self path st) as [[[] | e] st0] eqn:Hi.
  - exact E.
  - revert Hi. run. discriminate.
Qed.

(** X5.  Connecting and disconnecting give the facade back.  From a facade with
    both fields unset, when the transport opens, the handshake returns and
    the close returns, [connect] followed by [cleanup] returns, every object
    of the store is what it was, and the handle closed is the handle that
    was opened. *)
Theorem connect_cleanup_round_trip (self : ref) (st : State)
  (h : Handle) (s : ClientSession) (w1 w2 w3 w4 : World) :
  let p := {| command := "python";
              args := [server_script_path (heap st self)] |} in
  unset st self ->
  stdio_client p (outside st) = (Ok h, w1) ->
  handle_aenter h w1 = (Ok s, w2) ->
  session_initialize s w2 = (Ok tt, w3) ->
  handle_aexit h w3 = (Ok tt, w4) ->
  exists st',
    bind (connect self) (fun _ => cleanup self) st = (Ok tt, st') /\
    (forall r, heap st' r = heap st r) /\
    calls st'
    = calls st ++ [CallStdioClient p; CallEnter h; CallInitialize s; CallExit h] /\
    outside st' = w4.
Proof.
  intros p [Us Uh] H1 H2 H3 H4.
  pose proof (connect_cases self st) as C. cbv zeta in C. fold p in C.
  rewrite H1, H2, H3 in C. cbn [fst snd server_script_path session _stdio_client] in C.
  destruct C as (st1 & E & Hh & Hf & Hc & Ho).
  unfold bind. rewrite E.
  pose proof (cleanup_cases self st1) as C. rewrite Hh in C.
  cbn [_stdio_client] in C. rewrite Ho, H4 in C.
  destruct C as (st2 & E2 & _ & Hc2 & Ho2).
  destruct (cleanup_heap self st1 st2 E2) as [Hh2 Hf2].
  exists st2. rewrite E2, Hc2, Hc, <- !app_assoc. repeat split; auto.
  intros r. destruct (Nat.eq_dec r self) as [-> | Hne].
  - rewrite Hh2, Hh. cbn.
    destruct (heap st self) as [pa se ha]. cbn in *. now subst.
  - rewrite Hf2, Hf; auto.
Qed.

(** X6.  A scope whose entry fails at the handshake leaks the transport: the
    block does not run, [cleanup] does not run, the statement raises the
    handshake's error, and the facade is left holding the handle that was
    opened, with no close among the calls made. *)
Theorem async_with_failed_handshake_leaks (self : ref)
  (body : ref -> M unit) (st : State)
  (h : Handle) (s : ClientSession) (w1 w2 w3 : World) (e : exn) :
  let p := {| command := "python";
              args := [server_script_path (heap st self)] |} in
  stdio_client p (outside st) = (Ok h, w1) ->
  handle_aenter h w1 = (Ok s, w2) ->
  session_initialize s w2 = (Raise e, w3) ->
  exists st',
    async_with self body st = (Raise e, st') /\
    _stdio_client (heap st' self) = Some h /\
    session (heap st' self) = Some s /\
    calls st' = calls st ++ [CallStdioClient p; CallEnter h; CallInitialize s] /\
    outside st' = w3.
Proof.
  intros p H1 H2 H3.
  pose proof (connect_cases self st) as C. cbv zeta in C. fold p in C.
  rewrite H1, H2, H3 in C. cbn [fst snd server_script_path session _stdio_client] in C.
  destruct C as (st' & E & Hh & _ & Hc & Ho).
  exists st'. rewrite (async_with_connect_raises self body st st' e E).
  rewrite Hh. auto.
Qed.

End Delegation.

(** * Sequences of requests *)

Section Sequences.

Context {L : McpLibrary}.

(** A data request leaves the store alone.  Without a session it leaves
    the whole state alone; with one, it adds at most one call, a data call
    on that session. *)
Lemma data_request_effect (self : ref) (q : Request) (st : State) :
  is_data_request q = true ->
  heap (serve self q st) = heap st /\
  match session (heap st self) with
  | None => serve self q st = st
  | Some s =>
      exists cs, calls (serve self q st) = calls st ++ cs /\
                 Forall (data_call_on s) cs /\ length cs <= 1
  end.
Proof.
  intros Hq.
  destruct q as [| | | tool_name tool_input | uri | | prompt_name arguments];
    try discriminate Hq; cbn [serve]; run;
    destruct (session (heap st self)) as [s |] eqn:Hs; answer;
    try (split; reflexivity).
  - destruct (session_list_tools s (outside st)) as [[x | e] w]; cbn;
      (split; [reflexivity |]); exists [CallListTools s];
      repeat split; auto; repeat constructor.
  - destruct (session_call_tool s tool_name tool_input (outside st))
      as [[x | e] w]; cbn;
      (split; [reflexivity |]); exists [CallCallTool s tool_name tool_input];
      repeat split; auto; repeat constructor.
  - destruct (AnyUrl uri) as [u | e]; cbn.
    + assert (G : exists cs,
                 calls st ++ [CallReadResource s u] = calls st ++ cs /\
                 Forall (data_call_on s) cs /\ length cs <= 1).
      { exists [CallReadResource s u]. repeat split; auto.
        repeat constructor. }
      destruct (session_read_resource s u (outside st)) as [[x | e] w]; cbn;
        [| split; [reflexivity | exact G]].
      destruct (contents x) as [| r rest]; cbn;
        [split; [reflexivity | exact G] |].
      destruct (is_json (mime_type r)); cbn; (split; [reflexivity | exact G]).
    + split; [reflexivity |]. exists []. rewrite app_nil_r.
      repeat split; auto.
  - destruct (session_list_prompts s (outside st)) as [[x | e] w]; cbn;
      (split; [reflexivity |]); exists [CallListPrompts s];
      repeat split; auto; repeat constructor.
  - destruct (session_get_prompt s prompt_name _ (outside st))
      as [[x | e] w]; cbn;
      (split; [reflexivity |]); eexists [CallGetPrompt s prompt_name _];
      repeat split; auto; repeat constructor.
Qed.

(** What any request keeps: the path of the facade, every other object,
    the calls already recorded, and the pairing of session and handle. *)
Lemma serve_keeps (self : ref) (q : Request) (st : State) :
  server_script_path (heap (serve self q st) self)
  = server_script_path (heap st self) /\
  (forall r, r <> self -> heap (serve self q st) r = heap st r) /\
  (exists cs, calls (serve self q st) = calls st ++ cs) /\
  (session_has_handle (heap st self) ->
   session_has_handle (heap (serve self q st) self)).
Proof.
  destruct (is_data_request q) eqn:Hq.
  - destruct (data_request_effect self q st Hq) as [Hh Hc].
    rewrite Hh. repeat split; auto.
    destruct (session (heap st self)) as [s |].
    + destruct Hc as (cs & E & _). exists cs. exact E.
    + rewrite Hc. exists []. now rewrite app_nil_r.
  - destruct q; try discriminate Hq; cbn [serve].
    + pose proof (connect_cases self st) as C. cbv zeta in C.
      destruct (stdio_client _ (outside st)) as [[h | e] w].
      * destruct (handle_aenter h w) as [[s | e] w'];
          destruct C as (st' & E & Hh & Hf & Hc & _);
          rewrite E; cbn [snd]; rewrite Hh; cbn;
          repeat split; eauto; intros _ _; discriminate.
      * rewrite C. cbn. repeat split; auto. eauto.
    + pose proof (cleanup_cases self st) as C.
      assert (G : forall st', cleanup self st = (Ok tt, st') ->
                  (exists cs, calls st' = calls st ++ cs) ->
                  server_script_path (heap st' self)
                  = server_script_path (heap st self) /\
                  (forall r, r <> self -> heap st' r = heap st r) /\
                  (exists cs, calls st' = calls st ++ cs) /\
                  (session_has_handle (heap st self) ->
                   session_has_handle (heap st' self))).
      { intros st' E Hc. destruct (cleanup_heap self st st' E) as [Hh Hf].
        rewrite Hh. cbn. repeat split; auto. intros _ H. now elim H. }
      destruct (_stdio_client (heap st self)) as [h |].
      * destruct (handle_aexit h (outside st)) as [[[] | e] w].
        -- destruct C as (st' & E & _ & Hc & _). rewrite E. cbn [snd].
           apply G; eauto.
        -- rewrite C. cbn. repeat split; auto. eauto.
      * destruct C as (st' & E & _ & Hc & _). rewrite E. cbn [snd].
        apply G; [exact E |]. exists []. now rewrite app_nil_r.
Qed.

Lemma serve_all_cons (self : ref) (q : Request) (qs : list Request)
  (st : State) :
  serve_all self (q :: qs) st = serve_all self qs (serve self q st).
Proof. reflexivity. Qed.

(** X7.  However a caller mixes [connect], [cleanup] and the data operations,
    and whichever of them raise, the facade never holds a session without
    a handle, provided it did not to begin with (as after [__init__]).  So
    the test on the handle in [cleanup] never skips a facade that holds a
    session. *)
Theorem session_never_without_handle (self : ref) (qs : list Request)
  (st : State) :
  session_has_handle (heap st self) ->
  session_has_handle (heap (serve_all self qs st) self).
Proof.
  revert st. induction qs as [| q qs IH]; intros st H; cbn; [exact H |].
  apply IH. now apply serve_keeps.
Qed.

(** X8.  No sequence of method calls changes the script path of the facade,
    touches another object of the store, or drops or reorders a call
    already recorded: the calls after the sequence extend the calls before
    it. *)
Theorem requests_keep_path_and_log (self : ref) (qs : list Request)
  (st : State) :
  server_script_path (heap (serve_all self qs st) self)
  = server_script_path (heap st self) /\
  (forall r, r <> self -> heap (serve_all self qs st) r = heap st r) /\
  (exists cs, calls (serve_all self qs st) = calls st ++ cs).
Proof.
  revert st. induction qs as [| q qs IH]; intros st.
  - cbn. repeat split. exists []. now rewrite app_nil_r.
  - rewrite serve_all_cons.
    destruct (IH (serve self q st)) as (Hp & Hf & cs2 & Hc).
    destruct (serve_keeps self q st) as (Hp1 & Hf1 & (cs1 & Hc1) & _).
    rewrite Hp, Hp1. repeat split.
    + intros r Hne. rewrite Hf, Hf1; auto.
    + exists (cs1 ++ cs2). now rewrite Hc, Hc1, app_assoc.
Qed.

(** X9.  A connected facade stays connected, to the same session, through any
    sequence of data operations, whichever of them raise: the store is
    unchanged, each operation adds at most one call, and every call added
    is a data call on that session; none opens, enters, initializes or
    closes a transport. *)
Theorem data_requests_stay_on_session (self : ref) (qs : list Request)
  (st : State) (s : ClientSession) :
  session (heap st self) = Some s ->
  forallb is_data_request qs = true ->
  heap (serve_all self qs st) = heap st /\
  exists cs, calls (serve_all self qs st) = calls st ++ cs /\
             Forall (data_call_on s) cs /\ length cs <= length qs.
Proof.
  revert st. induction qs as [| q qs IH]; intros st Hs Hq.
  - cbn. split; [reflexivity |]. exists []. rewrite app_nil_r. auto.
  - rewrite serve_all_cons.
    cbn in Hq. apply andb_prop in Hq as [Hq1 Hq2].
    destruct (data_request_effect self q st Hq1) as [Hh Hc].
    rewrite Hs in Hc. destruct Hc as (cs1 & Hc1 & Hd1 & Hl1).
    destruct (IH (serve self q st)) as (Hh2 & cs2 & Hc2 & Hd2 & Hl2);
      [now rewrite Hh | exact Hq2 |].
    split; [now rewrite Hh2 |].
    exists (cs1 ++ cs2). rewrite Hc2, Hc1, app_assoc.
    repeat split.
    + apply Forall_app. auto.
    + rewrite length_app. cbn. lia.
Qed.

End Sequences.

(** * The demonstration routine *)


Section DemonstrationProperties.

Context {L : McpLibrary} {F : Formatting L}.



Lemma list_tools_connected (self : ref) (st : State) (s : ClientSession) :
  session (heap st self) = Some s ->
  list_tools self st
  = (let (r, w) := session_list_tools s (outside st) in
     (result_map tools r, after st [CallListTools s] w)).
Proof.
  intros Hs. run. answer.
  destruct (session_list_tools s (outside st)) as [[x | e] w]; reflexivity.
Qed.














(** X12.  When the routine has connected and the tool listing raises, it
    stops there: it has printed its first line only, none of the three
    guarded steps is attempted, and the close of the transport it opened
    is attempted.  If the close returns, both fields are unset and the
    listing's error is what the routine raises; if the close raises, the
    routine raises the close's error and both fields stay set. *)
Theorem test_client_listing_fails (obj : ref) (out : list string)
  (st : State) (h : Handle) (s : ClientSession) (w1 w2 w3 w4 : World)
  (e : exn) :
  let p := {| command := "python"; args := ["mcp_server.py"] |} in
  let cs := [CallStdioClient p; CallEnter h; CallInitialize s;
             CallListTools s; CallExit h] in
  stdio_client p (outside st) = (Ok h, w1) ->
  handle_aenter h w1 = (Ok s, w2) ->
  session_initialize s w2 = (Ok tt, w3) ->
  session_list_tools s w3 = (Raise e, w4) ->
  (forall w5,
     handle_aexit h w4 = (Ok tt, w5) ->
     exists st',
       test_client obj out st = (Raise e, out ++ ["Available tools:"], st') /\
       unset st' obj /\
       calls st' = calls st ++ cs /\
       outside st' = w5) /\
  (forall e' w5,
     handle_aexit h w4 = (Raise e', w5) ->
     exists st',
       test_client obj out st = (Raise e', out ++ ["Available tools:"], st') /\
       session (heap st' obj) = Some s /\
       _stdio_client (heap st' obj) = Some h /\
       calls st' = calls st ++ cs /\
       outside st' = w5).
Proof.
  intros p cs H1 H2 H3 H4.
  destruct (init_connect_returns obj "mcp_server.py" st h s w1 w2 w3 H1 H2 H3)
    as (st1 & E & Hh & _ & Hc & Ho).
  fold p in Hc.
  assert (Hi : __init__ obj "mcp_server.py" st
               = (Ok tt, snd (__init__ obj "mcp_server.py" st)))
    by reflexivity.
  assert (Hs : session (heap st1 obj) = Some s) by now rewrite Hh.
  assert (Eb : test_block obj out st1
               = (Raise e, out ++ ["Available tools:"],
                  after st1 [CallListTools s] w4)).
  { unfold test_block, sbind at 1, show_tools, sbind at 1, print.
    unfold sbind at 1, await.
    rewrite (list_tools_connected obj st1 s Hs), Ho, H4. reflexivity. }
  assert (Et : test_client obj out st
               = (let (r, st') := cleanup obj (after st1 [CallListTools s] w4) in
                  (match r with Ok _ => Raise e | Raise e' => Raise e' end,
                   out ++ ["Available tools:"], st'))).
  { unfold test_client, sbind at 1, await. rewrite Hi.
    unfold script_async_with, __aenter__, __aexit__, bind, ret.
    rewrite E. cbv beta iota. rewrite Eb. cbv beta iota.
    destruct (cleanup obj (after st1 [CallListTools s] w4)) as [[[] | e'] st'];
      reflexivity. }
  pose proof (cleanup_cases obj (after st1 [CallListTools s] w4)) as C.
  cbn [heap outside after] in C. rewrite Hh in C. cbn [_stdio_client] in C.
  split.
  - intros w5 H5. rewrite H5 in C. destruct C as (st' & Ec & U & Hc' & Ho').
    exists st'. rewrite Et, Ec. repeat split; try apply U; auto.
    rewrite Hc'. cbn. rewrite Hc, <- !app_assoc. reflexivity.
  - intros e' w5 H5. rewrite H5 in C.
    eexists. rewrite Et, C. split; [reflexivity |]. cbn.
    rewrite Hh, Hc, <- !app_assoc. repeat split.
Qed.

(** X13.  When the routine's [connect] returns, [cleanup] runs once on the state
    the block leaves, whether the block returned or raised.  If the close
    returns, the routine ends as the block ended and the facade is
    disconnected; if the close raises, the routine raises that error. *)
Theorem test_client_cleans_up (obj : ref) (out : list string)
  (st st1 : State) :
  connect obj (snd (__init__ obj "mcp_server.py" st)) = (Ok tt, st1) ->
  forall rb out2 st2,
    test_block obj out st1 = (rb, out2, st2) ->
    (forall st3,
       cleanup obj st2 = (Ok tt, st3) ->
       test_client obj out st = (rb, out2, st3) /\ unset st3 obj) /\
    (forall e st3,
       cleanup obj st2 = (Raise e, st3) ->
       test_client obj out st = (Raise e, out2, st3)).
Proof.
  intros Hc rb out2 st2 Hb.
  assert (Hi : __init__ obj "mcp_server.py" st
               = (Ok tt, snd (__init__ obj "mcp_server.py" st)))
    by reflexivity.
  split; [intros st3 Ec | intros e st3 Ec];
    unfold test_client, sbind, await; rewrite Hi;
    unfold script_async_with, __aenter__, __aexit__, bind, ret;
    rewrite Hc; cbv beta iota; rewrite Hb; cbv beta iota.
  - split; [| exact (cleanup_returns_unset _ _ _ _ Ec)].
    destruct rb as [[] | e]; rewrite Ec; reflexivity.
  - destruct rb as [[] | e0]; rewrite Ec; reflexivity.
Qed.

End DemonstrationProperties.

(** * More runs against the example servers *)

(** A tool call on the connected example server: the name and the input
    arrive as given and the answer comes back as it is. *)
Lemma delegation_is_transparent_witness :
  session (heap (Fake.connected Fake.sound 0) 0) = Some 0 /\
  call_tool (L := Fake.sound) 0 "edit_document" [("doc_id", PyStr "a.md")]
    (Fake.connected Fake.sound 0)
  = (Ok ("edit_document", [("doc_id", PyStr "a.md")]),
     after (Fake.connected Fake.sound 0)
       [@CallCallTool Fake.sound 0 "edit_document" [("doc_id", PyStr "a.md")]]
       1).
Proof.
  split; [reflexivity |].
  destruct (delegation_is_transparent (L := Fake.sound) 0
              (Fake.connected Fake.sound 0) 0 eq_refl) as (_ & H & _).
  exact (H "edit_document" [("doc_id", PyStr "a.md")]).
Defined.

(** An empty URI, a resource the server refuses and a resource that is not
    the JSON it claims to be. *)
Lemma read_resource_failures_witness :
  session (heap (Fake.connected Faulty.reads 0) 0) = Some 0 /\
  read_resource (L := Faulty.reads) 0 EmptyString (Fake.connected Faulty.reads 0)
  = (Raise (ValidationError "Input should be a valid URL"),
     Fake.connected Faulty.reads 0) /\
  read_resource (L := Faulty.reads) 0 "docs://down"
    (Fake.connected Faulty.reads 0)
  = (Raise (McpError "Unknown resource"),
     after (Fake.connected Faulty.reads 0)
       [@CallReadResource Faulty.reads 0 "docs://down"] 1) /\
  read_resource (L := Faulty.reads) 0 "docs://bad"
    (Fake.connected Faulty.reads 0)
  = (Raise (JSONDecodeError "Expecting value"),
     after (Fake.connected Faulty.reads 0)
       [@CallReadResource Faulty.reads 0 "docs://bad"] 1).
Proof.
  split; [reflexivity |]. split; [| split].
  - apply (read_resource_failures (L := Faulty.reads) 0 EmptyString
             (Fake.connected Faulty.reads 0) 0 eq_refl).
    reflexivity.
  - apply (read_resource_failures (L := Faulty.reads) 0 "docs://down"
             (Fake.connected Faulty.reads 0) 0 eq_refl); reflexivity.
  - destruct (read_resource_failures (L := Faulty.reads) 0 "docs://bad"
                (Fake.connected Faulty.reads 0) 0 eq_refl) as (_ & _ & H).
    apply (H "docs://bad" (Faulty.resources "docs://bad") 1
             (Some "application/json", "{oops") []); reflexivity.
Defined.

(** A handle that cannot be entered stays in the facade; so do a handle and
    a session whose handshake failed. *)
Lemma connect_failure_stages_witness :
  (exists st',
     connect (L := Faulty.no_enter) 0 (Fake.constructed Faulty.no_enter 0)
     = (Raise (OSError "Connection closed"), st') /\
     _stdio_client (heap st' 0) = Some 0 /\
     session (heap st' 0) = None /\
     calls st' = [CallStdioClient {| command := "python";
                                     args := ["mcp_server.py"] |};
                  @CallEnter Faulty.no_enter 0] /\
     outside st' = 1) /\
  (exists st',
     connect (L := Faulty.no_handshake) 0
       (Fake.constructed Faulty.no_handshake 0)
     = (Raise (McpError "Connection closed"), st') /\
     _stdio_client (heap st' 0) = Some 0 /\
     session (heap st' 0) = Some 0 /\
     calls st' = [CallStdioClient {| command := "python";
                                     args := ["mcp_server.py"] |};
                  @CallEnter Faulty.no_handshake 0;
                  @CallInitialize Faulty.no_handshake 0] /\
     outside st' = 1).
Proof.
  split.
  - destruct (connect_failure_stages (L := Faulty.no_enter) 0
                (Fake.constructed Faulty.no_enter 0)) as (_ & H & _).
    apply (H 0 1 (OSError "Connection closed") 1); reflexivity.
  - destruct (connect_failure_stages (L := Faulty.no_handshake) 0
                (Fake.constructed Faulty.no_handshake 0)) as (_ & _ & H).
    apply (H 0 1 0 1 (McpError "Connection closed") 1); reflexivity.
Defined.

(** The example server is started as [python server.py]. *)
Lemma connect_starts_script_witness :
  exists st',
    bind (__init__ (L := Fake.sound) 0 "server.py") (fun _ => connect 0)
      (Fake.start Fake.sound 0)
    = (Ok tt, st') /\
    heap st' 0 = @Build_MCPClient Fake.sound "server.py" (Some 0) (Some 0) /\
    (forall r, r <> 0 -> heap st' r = heap (Fake.start Fake.sound 0) r) /\
    calls st'
    = calls (Fake.start Fake.sound 0)
      ++ [CallStdioClient {| command := "python"; args := ["server.py"] |};
          @CallEnter Fake.sound 0; @CallInitialize Fake.sound 0] /\
    outside st' = 1.
Proof.
  apply (connect_starts_script (L := Fake.sound) 0 "server.py"
           (Fake.start Fake.sound 0) 0 0 1 1 1); reflexivity.
Defined.

(** Connect and disconnect on the example server. *)
Lemma connect_cleanup_round_trip_witness :
  unset (Fake.constructed Fake.sound 0) 0 /\
  exists st',
    bind (connect (L := Fake.sound) 0) (fun _ => cleanup 0)
      (Fake.constructed Fake.sound 0)
    = (Ok tt, st') /\
    (forall r, heap st' r = heap (Fake.constructed Fake.sound 0) r) /\
    calls st'
    = calls (Fake.constructed Fake.sound 0)
      ++ [CallStdioClient {| command := "python"; args := ["mcp_server.py"] |};
          @CallEnter Fake.sound 0; @CallInitialize Fake.sound 0;
          @CallExit Fake.sound 0] /\
    outside st' = 1.
Proof.
  split; [split; reflexivity |].
  apply (connect_cleanup_round_trip (L := Fake.sound) 0
           (Fake.constructed Fake.sound 0) 0 0 1 1 1 1);
    try reflexivity.
  split; reflexivity.
Defined.

(** A scope on the server whose handshake fails. *)
Lemma async_with_failed_handshake_leaks_witness :
  exists st',
    async_with (L := Faulty.no_handshake) 0 Fake.failing_block
      (Fake.constructed Faulty.no_handshake 0)
    = (Raise (McpError "Connection closed"), st') /\
    _stdio_client (heap st' 0) = Some 0 /\
    session (heap st' 0) = Some 0 /\
    calls st'
    = calls (Fake.constructed Faulty.no_handshake 0)
      ++ [CallStdioClient {| command := "python"; args := ["mcp_server.py"] |};
          @CallEnter Faulty.no_handshake 0;
          @CallInitialize Faulty.no_handshake 0] /\
    outside st' = 1.
Proof.
  apply (async_with_failed_handshake_leaks (L := Faulty.no_handshake) 0
           Fake.failing_block (Fake.constructed Faulty.no_handshake 0)
           0 0 1 1 1 (McpError "Connection closed"));
    reflexivity.
Defined.

(** A failed connect, a reconnect, data calls and two cleanups on the
    server that cannot enter its handle. *)
Lemma session_never_without_handle_witness :
  session_has_handle (heap (Fake.constructed Faulty.no_enter 0) 0) /\
  session_has_handle
    (heap (serve_all (L := Faulty.no_enter) 0
             [Connect; ListTools; Connect; Cleanup; ReadResource "docs://a";
              Cleanup]
             (Fake.constructed Faulty.no_enter 0)) 0).
Proof.
  assert (H : session_has_handle (heap (Fake.constructed Faulty.no_enter 0) 0)).
  { intros H. exfalso. apply H. reflexivity. }
  split; [exact H |].
  apply (session_never_without_handle (L := Faulty.no_enter) 0 _
           (Fake.constructed Faulty.no_enter 0) H).
Defined.

(** Five data requests on the connected example server, two of which
    raise. *)
Lemma data_requests_stay_on_session_witness :
  session (heap (Fake.connected Fake.sound 0) 0) = Some 0 /\
  heap (serve_all (L := Fake.sound) 0
          [ListTools; ReadResource "docs://none"; ReadResource EmptyString;
           GetPrompt "format" None; CallTool "edit_document" []]
          (Fake.connected Fake.sound 0))
  = heap (Fake.connected Fake.sound 0) /\
  exists cs,
    calls (serve_all (L := Fake.sound) 0
             [ListTools; ReadResource "docs://none"; ReadResource EmptyString;
              GetPrompt "format" None; CallTool "edit_document" []]
             (Fake.connected Fake.sound 0))
    = calls (Fake.connected Fake.sound 0) ++ cs /\
    Forall (data_call_on (L := Fake.sound) 0) cs /\ length cs <= 5.
Proof.
  split; [reflexivity |].
  apply (data_requests_stay_on_session (L := Fake.sound) 0
           [ListTools; ReadResource "docs://none"; ReadResource EmptyString;
            GetPrompt "format" None; CallTool "edit_document" []]
           (Fake.connected Fake.sound 0) 0); reflexivity.
Defined.



(** The routine on the server that cannot list its tools, and on the one
    that cannot close its transport either. *)
Lemma test_client_listing_fails_witness :
  (exists st',
     test_client (L := Faulty.no_listing)
       (F := Faulty.names Faulty.no_listing (fun t => t) (fun t => t))
       0 [] (Fake.start Faulty.no_listing 0)
     = (Raise (McpError "Method not found"), [] ++ ["Available tools:"], st') /\
     unset st' 0 /\
     calls st'
     = calls (Fake.start Faulty.no_listing 0)
       ++ [CallStdioClient {| command := "python"; args := ["mcp_server.py"] |};
           @CallEnter Faulty.no_listing 0; @CallInitialize Faulty.no_listing 0;
           @CallListTools Faulty.no_listing 0; @CallExit Faulty.no_listing 0] /\
     outside st' = 1) /\
  (exists st',
     test_client (L := Faulty.no_listing_no_close)
       (F := Faulty.names Faulty.no_listing_no_close (fun t => t) (fun t => t))
       0 [] (Fake.start Faulty.no_listing_no_close 0)
     = (Raise (OSError "Broken pipe"), [] ++ ["Available tools:"], st') /\
     session (heap st' 0) = Some 0 /\
     _stdio_client (heap st' 0) = Some 0 /\
     calls st'
     = calls (Fake.start Faulty.no_listing_no_close 0)
       ++ [CallStdioClient {| command := "python"; args := ["mcp_server.py"] |};
           @CallEnter Faulty.no_listing_no_close 0;
           @CallInitialize Faulty.no_listing_no_close 0;
           @CallListTools Faulty.no_listing_no_close 0;
           @CallExit Faulty.no_listing_no_close 0] /\
     outside st' = 1).
Proof.
  split.
  - destruct (test_client_listing_fails (L := Faulty.no_listing)
                (F := Faulty.names Faulty.no_listing (fun t => t) (fun t => t))
                0 [] (Fake.start Faulty.no_listing 0) 0 0 1 1 1 1
                (McpError "Method not found")
                eq_refl eq_refl eq_refl eq_refl) as [H _].
    exact (H 1 eq_refl).
  - destruct (test_client_listing_fails (L := Faulty.no_listing_no_close)
                (F := Faulty.names Faulty.no_listing_no_close
                        (fun t => t) (fun t => t))
                0 [] (Fake.start Faulty.no_listing_no_close 0) 0 0 1 1 1 1
                (McpError "Method not found")
                eq_refl eq_refl eq_refl eq_refl) as [_ H].
    exact (H (OSError "Broken pipe") 1 eq_refl).
Defined.

(** The routine on the example server returns with the facade
    disconnected. *)
Lemma test_client_cleans_up_witness :
  fst (fst (test_client (L := Fake.sound)
              (F := Faulty.names Fake.sound (fun t => t) (fun t => t))
              0 [] (Fake.start Fake.sound 0))) = Ok tt /\
  unset (snd (test_client (L := Fake.sound)
                (F := Faulty.names Fake.sound (fun t => t) (fun t => t))
                0 [] (Fake.start Fake.sound 0))) 0.
Proof.
  pose (F := Faulty.names Fake.sound (fun t => t) (fun t => t)).
  pose (st1 := Fake.connected Fake.sound 0).
  pose (b := test_block (L := Fake.sound) (F := F) 0 [] st1).
  destruct (test_client_cleans_up (L := Fake.sound) (F := F) 0 []
              (Fake.start Fake.sound 0) st1 eq_refl
              (fst (fst b)) (snd (fst b)) (snd b) eq_refl) as [H _].
  destruct (H (snd (cleanup (L := Fake.sound) 0 (snd b))) eq_refl) as [E U].
  fold F. rewrite E. split; [reflexivity | exact U].
Defined.
